(** * BLE OTA firmware update: the transfer state machine of [BLEOtaUpdate]

    A shallow embedding of [src/BLEOtaUpdate.cpp] / [src/BLEOtaUpdate.h]:
    the session fields of the [BLEOtaUpdate] object, the frame handler
    [handleOtaWrite], [abortUpdate], the connection callbacks and
    [getUpdatePercentage].

    - [uint32_t] fields are [N] with the wrap-around modulo [2^32] written
      out; [uint8_t] results are reduced modulo [2^8].
    - A frame is a [list byte]; the handler first copies it through
      [c_str()] into a [std::string], which stops at the first NUL byte.
    - The platform flash updater ([Update], from [Update.h] of the Arduino
      core, not part of this repository) is an interface: a type class whose
      three operations thread the updater's own state.
    - Every observable action (calls on [Update], status and progress
      reports, notifications, the restart) is appended to a trace kept in
      the session, in program order. *)

From Stdlib Require Import List Arith NArith Bool String Lia.
From Stdlib Require Import Strings.Byte.
Import ListNotations.

Local Open Scope N_scope.

(** ** Data of BLEOtaUpdate.h *)

Inductive OtaStatus : Type :=
| IDLE
| RECEIVING
| COMPLETED
| ERROR
| ABORTED.

(** The command markers, as the bytes of the C string literals. *)
Definition OTA_CMD_OPEN : list byte := list_byte_of_string "OPEN".
Definition OTA_CMD_DONE : list byte := list_byte_of_string "DONE".
Definition OTA_CMD_ABORT : list byte := list_byte_of_string "ABORT".

(** ** Machine arithmetic *)

Definition wrap32 (n : N) : N := n mod 2 ^ 32.
Definition wrap8 (n : N) : N := n mod 2 ^ 8.

(** ** Byte strings *)

(** [std::string value = pCharacteristic->getValue().c_str();]
    constructing a [std::string] from a [const char*] copies the bytes up to,
    and not including, the first NUL. *)
Fixpoint c_str (frame : list byte) : list byte :=
  match frame with
  | [] => []
  | b :: rest => if Byte.eqb b x00 then [] else b :: c_str rest
  end.

Fixpoint bytes_eqb (a b : list byte) : bool :=
  match a, b with
  | [], [] => true
  | x :: a', y :: b' => Byte.eqb x y && bytes_eqb a' b'
  | _, _ => false
  end.

(** [memcmp(a, b, n) == 0] *)
Definition memcmp_eq (a b : list byte) (n : nat) : bool :=
  bytes_eqb (firstn n a) (firstn n b).

(** The value of a little-endian byte sequence (the target is
    little-endian, so this is what [memcpy] into a [uint32_t] stores). *)
Fixpoint le_value (bs : list byte) : N :=
  match bs with
  | [] => 0
  | b :: rest => Byte.to_N b + 256 * le_value rest
  end.

(** [memcpy(&otaFileSize, data, 4)] *)
Definition memcpy_u32 (data : list byte) : N := le_value (firstn 4 data).

(** The 4 bytes a peer sends to declare [n] as the image size. *)
Definition byte_of_N (n : N) : byte :=
  match Byte.of_N (n mod 256) with
  | Some b => b
  | None => x00
  end.

Definition size_frame (n : N) : list byte :=
  [ byte_of_N n; byte_of_N (n / 2 ^ 8); byte_of_N (n / 2 ^ 16); byte_of_N (n / 2 ^ 24) ].

(** ** Observable actions *)

Inductive Effect : Type :=
| UpdateBegin (size : N)                       (* Update.begin(size) *)
| UpdateWrite (data : list byte)               (* Update.write(data, length) *)
| UpdateEnd (commit : bool)                    (* Update.end(commit) *)
| StatusReport (status : OtaStatus) (message : string)
                                               (* setOtaStatus: callback and serial line *)
| ProgressReport (received total percentage : N)
                                               (* updateProgress: callback and serial line *)
| ProgressNotify (received total : N)          (* sendProgress: "PROGRESS:r/t" notification *)
| StatusNotify (text : string)                 (* sendStatus notification *)
| ConnectionReport (connected : bool)          (* connection callback and serial line *)
| StartAdvertising                             (* BLEDevice::startAdvertising() *)
| Delay (ms : N)                               (* delay(ms) *)
| EspRestart.                                  (* ESP.restart() *)

Definition is_update_call (e : Effect) : bool :=
  match e with
  | UpdateBegin _ | UpdateWrite _ | UpdateEnd _ => true
  | _ => false
  end.

Definition is_update_write (e : Effect) : bool :=
  match e with UpdateWrite _ => true | _ => false end.


(** The calls made on the flash updater, in order. *)
Definition update_calls (tr : list Effect) : list Effect := filter is_update_call tr.

(** ** The flash updater interface (Update.h) *)

Class UpdateClass (U : Type) : Type := {
  Update_begin : N -> U -> bool * U;
  Update_write : list byte -> U -> N * U;
  Update_end : bool -> U -> bool * U
}.

(** An updater that has room for every image and takes every chunk whole. *)
#[export] Instance permissive_updater : UpdateClass unit := {
  Update_begin := fun _ u => (true, u);
  Update_write := fun data u => (N.of_nat (List.length data), u);
  Update_end := fun _ u => (true, u)
}.

(** ** The session *)

Section Session.

Context {U : Type} `{UpdateClass U}.

Record Session : Type := mkSession {
  otaInProgress : bool;
  otaFileSize : N;
  otaReceived : N;
  otaStatus : OtaStatus;
  clientConnected : bool;
  update : U;               (* the global [Update] object *)
  trace : list Effect;      (* observable actions so far, oldest first *)
  restarted : bool          (* [ESP.restart()] has been called *)
}.

Definition set_otaInProgress (v : bool) (s : Session) : Session :=
  mkSession v (otaFileSize s) (otaReceived s) (otaStatus s) (clientConnected s)
            (update s) (trace s) (restarted s).

Definition set_otaFileSize (v : N) (s : Session) : Session :=
  mkSession (otaInProgress s) v (otaReceived s) (otaStatus s) (clientConnected s)
            (update s) (trace s) (restarted s).

Definition set_otaReceived (v : N) (s : Session) : Session :=
  mkSession (otaInProgress s) (otaFileSize s) v (otaStatus s) (clientConnected s)
            (update s) (trace s) (restarted s).

Definition set_otaStatus (v : OtaStatus) (s : Session) : Session :=
  mkSession (otaInProgress s) (otaFileSize s) (otaReceived s) v (clientConnected s)
            (update s) (trace s) (restarted s).

Definition set_clientConnected (v : bool) (s : Session) : Session :=
  mkSession (otaInProgress s) (otaFileSize s) (otaReceived s) (otaStatus s) v
            (update s) (trace s) (restarted s).

Definition set_update (v : U) (s : Session) : Session :=
  mkSession (otaInProgress s) (otaFileSize s) (otaReceived s) (otaStatus s)
            (clientConnected s) v (trace s) (restarted s).

Definition set_restarted (v : bool) (s : Session) : Session :=
  mkSession (otaInProgress s) (otaFileSize s) (otaReceived s) (otaStatus s)
            (clientConnected s) (update s) (trace s) v.

Definition emit (e : Effect) (s : Session) : Session :=
  mkSession (otaInProgress s) (otaFileSize s) (otaReceived s) (otaStatus s)
            (clientConnected s) (update s) (trace s ++ [e]) (restarted s).

(** The constructor's initial state. *)
Definition initial (u : U) : Session :=
  mkSession false 0 0 IDLE false u [] false.

(** [BLEOtaUpdate::setOtaStatus] *)
Definition setOtaStatus (status : OtaStatus) (message : string) (s : Session) : Session :=
  emit (StatusReport status message) (set_otaStatus status s).

(** [BLEOtaUpdate::abortUpdate] *)
Definition abortUpdate (s : Session) : Session :=
  if otaInProgress s then
    let r := Update_end false (update s) in
    let s := emit (UpdateEnd false) (set_update (snd r) s) in
    let s := set_otaInProgress false s in
    let s := set_otaFileSize 0 s in
    let s := set_otaReceived 0 s in
    setOtaStatus ABORTED "Update aborted by user" s
  else s.

(** [BLEOtaUpdate::getUpdatePercentage]: the product is a [uint32_t]
    product and the result is returned as [uint8_t]. *)
Definition getUpdatePercentage (s : Session) : N :=
  if otaFileSize s =? 0 then 0
  else wrap8 (wrap32 (otaReceived s * 100) / otaFileSize s).

(** [BLEOtaUpdate::sendStatus], [BLEOtaUpdate::sendProgress]: the status
    characteristic exists once the service is initialised, which is the case
    whenever a transport callback runs. *)
Definition sendStatus (text : string) (s : Session) : Session :=
  if clientConnected s then emit (StatusNotify text) s else s.

Definition sendProgress (received total : N) (s : Session) : Session :=
  if clientConnected s then emit (ProgressNotify received total) s else s.

(** [BLEOtaUpdate::updateProgress] *)
Definition updateProgress (s : Session) : Session :=
  let percentage := getUpdatePercentage s in
  let s := emit (ProgressReport (otaReceived s) (otaFileSize s) percentage) s in
  sendProgress (otaReceived s) (otaFileSize s) s.

(** [BLEOtaUpdate::handleOtaWrite].  [ESP.restart()] does not return, so on
    a successful commit the assignment [otaInProgress = false] that follows
    it is not reached; the session is marked [restarted] instead. *)
Definition handleOtaWrite (frame : list byte) (s : Session) : Session :=
  let data := c_str frame in
  let length := N.of_nat (List.length data) in
  if length =? 0 then s
  else if negb (otaInProgress s) && (length =? 4) && memcmp_eq data OTA_CMD_OPEN 4 then
    let s := set_otaInProgress true s in
    let s := set_otaFileSize 0 s in
    let s := set_otaReceived 0 s in
    setOtaStatus RECEIVING "Update started" s
  else if otaInProgress s then
    if (otaFileSize s =? 0) && (length =? 4) then
      (* file size: first 4 bytes after OPEN *)
      let s := set_otaFileSize (memcpy_u32 data) s in
      let r := Update_begin (otaFileSize s) (update s) in
      let s := emit (UpdateBegin (otaFileSize s)) (set_update (snd r) s) in
      if negb (fst r) then
        set_otaInProgress false (setOtaStatus ERROR "Not enough space" s)
      else
        setOtaStatus RECEIVING "Receiving firmware" s
    else if (length =? 4) && memcmp_eq data OTA_CMD_DONE 4 then
      if negb (otaReceived s =? otaFileSize s) then
        let s := setOtaStatus ERROR "Size mismatch" s in
        let r := Update_end false (update s) in
        let s := emit (UpdateEnd false) (set_update (snd r) s) in
        set_otaInProgress false s
      else
        let r := Update_end true (update s) in
        let s := emit (UpdateEnd true) (set_update (snd r) s) in
        if fst r then
          let s := setOtaStatus COMPLETED "Update completed successfully" s in
          let s := emit (Delay 1000) s in
          set_restarted true (emit EspRestart s)
        else
          let s := setOtaStatus ERROR "Update finalization failed" s in
          set_otaInProgress false s
    else if (length =? 5) && memcmp_eq data OTA_CMD_ABORT 5 then
      abortUpdate s
    else if otaReceived s <? otaFileSize s then
      (* firmware data *)
      let r := Update_write data (update s) in
      let written := fst r in
      let s := emit (UpdateWrite data) (set_update (snd r) s) in
      let s := emit (Delay 1) s in
      if 0 <? written then
        updateProgress (set_otaReceived (wrap32 (otaReceived s + written)) s)
      else
        set_otaInProgress false (setOtaStatus ERROR "Write failed" s)
    else s
  else s.

(** [BLEOtaUpdate::onClientConnect] *)
Definition onClientConnect (s : Session) : Session :=
  let s := set_clientConnected true s in
  let s := emit (ConnectionReport true) s in
  sendStatus "Connected" s.

(** [BLEOtaUpdate::onClientDisconnect] *)
Definition onClientDisconnect (s : Session) : Session :=
  let s := set_clientConnected false s in
  let s := if otaInProgress s then abortUpdate s else s in
  let s := emit (ConnectionReport false) s in
  emit StartAdvertising s.

(** ** Event delivery

    The transport delivers one event at a time; nothing is delivered once
    the device has restarted. *)

Inductive Event : Type :=
| OtaWrite (frame : list byte)     (* OtaCharacteristicCallbacks::onWrite *)
| Connect                          (* ServerCallbacks::onConnect *)
| Disconnect.                      (* ServerCallbacks::onDisconnect *)

Definition dispatch (s : Session) (e : Event) : Session :=
  if restarted s then s
  else match e with
       | OtaWrite frame => handleOtaWrite frame s
       | Connect => onClientConnect s
       | Disconnect => onClientDisconnect s
       end.

Definition run (s : Session) (events : list Event) : Session :=
  fold_left dispatch events s.

(** ** Vocabulary of the statements *)

(** The actions a step appended to the trace. *)
Definition new_effects (s s' : Session) : list Effect :=
  skipn (List.length (trace s)) (trace s').

(** An updater that accepts every [begin], takes every chunk whole and
    commits. *)
Definition cooperative : Prop :=
  (forall n u, fst (Update_begin n u) = true) /\
  (forall d u, fst (Update_write d u) = N.of_nat (List.length d)) /\
  (forall u, fst (Update_end true u) = true).

End Session.

Arguments Session U : clear implicits.

(** ** Frames and counters *)

(** No byte of the frame is NUL. *)
Definition nul_free (frame : list byte) : Prop := ~ In x00 frame.

(** [getUpdatePercentage] as a function of the two counters. *)
Definition percentage (received total : N) : N :=
  if total =? 0 then 0 else wrap8 (wrap32 (received * 100) / total).

(** A payload frame the handler takes as data and passes on whole. *)
Definition data_chunk (c : list byte) : Prop :=
  nul_free c /\ c <> [] /\ c <> OTA_CMD_DONE /\ c <> OTA_CMD_ABORT.

Definition total_length (chunks : list (list byte)) : N :=
  N.of_nat (List.length (List.concat chunks)).

(** * Concrete sessions, with the permissive updater *)

(** Freshly constructed. *)
Definition booted : Session unit := initial tt.

(** After OPEN: in progress, size not yet known. *)
Definition opened : Session unit := run booted [OtaWrite OTA_CMD_OPEN].

(** After OPEN and the size frame 09 01 01 01: size 16843017. *)
Definition sized : Session unit :=
  run booted [OtaWrite OTA_CMD_OPEN; OtaWrite [x09; x01; x01; x01]].

(** After eight bytes of payload. *)
Definition receiving8 : Session unit :=
  run sized [OtaWrite [x11; x12; x13; x14; x15; x16; x17; x18]].

(** One byte short of the size 16843009 declared by the frame 01 01 01 01. *)
Definition nearly_full : Session unit :=
  mkSession true 16843009 16843008 RECEIVING false tt [] false.

(** Two bytes short of the largest size, 2^32 - 1 (size frame FF FF FF FF). *)
Definition nearly_max : Session unit :=
  mkSession true 4294967295 4294967293 RECEIVING false tt [] false.

(** Halfway through an image of 101058054 bytes (size frame 06 06 06 06). *)
Definition halfway_large : Session unit :=
  mkSession true 101058054 50529027 RECEIVING false tt [] false.

(** The scenario of the specification: OPEN, size 1024, 1024 bytes of
    payload in two frames, DONE. *)
Definition scenario_1024 : list Event :=
  [ OtaWrite OTA_CMD_OPEN;
    OtaWrite (size_frame 1024);
    OtaWrite (repeat xa5 512);
    OtaWrite (repeat xa5 512);
    OtaWrite OTA_CMD_DONE ].

(** 16843008 bytes of payload in frames of 512 bytes and one of 256. *)
Definition payload_chunks : list (list byte) :=
  repeat (repeat xa5 512) (N.to_nat 32896) ++ [repeat xa5 256].


(** * The rest of the object's interface *)

(** ** Status methods *)

Section Interface.

Context {U : Type}.

(** [BLEOtaUpdate::isConnected] *)
Definition isConnected (s : Session U) : bool := clientConnected s.

(** [BLEOtaUpdate::isUpdateInProgress] *)
Definition isUpdateInProgress (s : Session U) : bool := otaInProgress s.

(** [BLEOtaUpdate::getOtaStatus] *)
Definition getOtaStatus (s : Session U) : OtaStatus := otaStatus s.

(** [BLEOtaUpdate::getUpdateProgress] *)
Definition getUpdateProgress (s : Session U) : N := otaReceived s.

(** [BLEOtaUpdate::getUpdateTotal] *)
Definition getUpdateTotal (s : Session U) : N := otaFileSize s.

(** ** Control methods

    [stop] and [restart] test the server pointer, which is null until
    [begin] has run; it is the argument [pServer].  The call they make on
    [BLEDevice] is returned beside the session. *)

Inductive AdvertisingCall : Type :=
| startAdvertising        (* BLEDevice::startAdvertising() *)
| stopAdvertising.        (* BLEDevice::stopAdvertising() *)

(** [BLEOtaUpdate::stop] *)
Definition stop (pServer : bool) (s : Session U) : list AdvertisingCall * Session U :=
  let calls := if pServer then [stopAdvertising] else [] in
  (calls, setOtaStatus IDLE "Service stopped" s).

(** [BLEOtaUpdate::restart] *)
Definition restart (pServer : bool) (s : Session U) : list AdvertisingCall * Session U :=
  if pServer then
    ([startAdvertising], setOtaStatus IDLE "Service restarted" s)
  else ([], s).

End Interface.

(** ** The command channel *)

(** [BLEOtaUpdate::handleCommandWrite]: the text handed to the command
    callback, if the callback is called.  [commandCallback] tells whether a
    callback is set.  The frame goes through [c_str] into a [std::string],
    and that string through [c_str] again into the [String] passed on. *)
Definition handleCommandWrite (commandCallback : bool) (frame : list byte)
  : option (list byte) :=
  let value := c_str frame in
  if commandCallback && (0 <? N.of_nat (List.length value)) then
    Some (c_str value)
  else None.

(** ** An updater with a fixed partition

    Its state is the partition size and the room left in the transaction.
    [begin] fails for an image larger than the partition, [write] takes a
    chunk whole or not at all, and a commit succeeds when the room is used
    up. *)
#[export] Instance partition_updater : UpdateClass (N * N) := {
  Update_begin := fun size u =>
    if size <=? fst u then (true, (fst u, size)) else (false, u);
  Update_write := fun data u =>
    if N.of_nat (List.length data) <=? snd u
    then (N.of_nat (List.length data), (fst u, snd u - N.of_nat (List.length data)))
    else (0, u);
  Update_end := fun commit u =>
    (if commit then snd u =? 0 else true, (fst u, 0))
}.

(** An updater that validates the image on commit; its state tells
    whether the image it holds is valid. *)
#[export] Instance validating_updater : UpdateClass bool := {
  Update_begin := fun _ valid => (true, valid);
  Update_write := fun data valid => (N.of_nat (List.length data), valid);
  Update_end := fun commit valid => (if commit then valid else true, valid)
}.

(** All of the size 16843009 received, but the image is not valid. *)
Definition invalid_image_received : Session bool :=
  mkSession true 16843009 16843009 RECEIVING true false [] false.

(** A device with a 1 MiB partition right after OPEN. *)
Definition opened_small_partition : Session (N * N) :=
  run (initial (1048576, 0)) [OtaWrite OTA_CMD_OPEN].

(** Four bytes short of the size 16843017, with room for four more bytes. *)
Definition four_bytes_left : Session (N * N) :=
  mkSession true 16843017 16843013 RECEIVING true (33554432, 4) [] false.

(** All of the size 16843009 received, nothing committed yet. *)
Definition all_received : Session unit :=
  mkSession true 16843009 16843009 RECEIVING true tt [] false.


(** 16843009 bytes of payload: [payload_chunks] and one more byte. *)
Definition full_payload : list (list byte) := payload_chunks ++ [[xa5]].


(** * Properties *)

(** ** Byte strings *)

Lemma bytes_eqb_eq (a b : list byte) : bytes_eqb a b = true <-> a = b.
Proof.
  revert b; induction a as [|x a IH]; intros [|y b]; simpl; split;
    try congruence; try discriminate.
  - intros E. apply andb_true_iff in E as [E1 E2].
    apply Byte.byte_dec_bl in E1. apply IH in E2. congruence.
  - intros E. injection E as -> ->. apply andb_true_iff. split.
    + now apply Byte.byte_dec_lb.
    + now apply IH.
Qed.

Lemma memcmp_eq_whole (a b : list byte) (n : nat) :
  List.length a = n -> List.length b = n -> memcmp_eq a b n = true <-> a = b.
Proof.
  intros La Lb. unfold memcmp_eq.
  rewrite <- La at 1. rewrite <- Lb. rewrite !firstn_all.
  apply bytes_eqb_eq.
Qed.

(** A frame without NUL bytes goes through [c_str] unchanged. *)
Lemma c_str_nul_free (frame : list byte) : nul_free frame -> c_str frame = frame.
Proof.
  unfold nul_free. induction frame as [|b rest IH]; simpl; intros Hn; [reflexivity|].
  destruct (Byte.eqb b x00) eqn:E.
  - apply Byte.byte_dec_bl in E. exfalso. apply Hn. now left.
  - f_equal. apply IH. intros Hin. apply Hn. now right.
Qed.

Lemma c_str_is_nul_free (frame : list byte) : nul_free (c_str frame).
Proof.
  unfold nul_free. induction frame as [|b rest IH]; simpl; [tauto|].
  destruct (Byte.eqb b x00) eqn:E; simpl; [tauto|].
  intros [-> | Hin]; [|tauto].
  now rewrite (Byte.byte_dec_lb (x:=x00) eq_refl) in E.
Qed.

Lemma c_str_prefix (frame : list byte) :
  exists rest, frame = c_str frame ++ rest.
Proof.
  induction frame as [|b fr [rest IH]]; simpl.
  - now exists [].
  - destruct (Byte.eqb b x00).
    + now exists (b :: fr).
    + exists rest. simpl. now f_equal.
Qed.

Lemma le_value_bound (bs : list byte) : le_value bs < 256 ^ N.of_nat (List.length bs).
Proof.
  induction bs as [|b bs IH].
  - simpl. lia.
  - cbn [le_value List.length]. rewrite Nnat.Nat2N.inj_succ, N.pow_succ_r'.
    pose proof (Byte.to_N_bounded b). lia.
Qed.

Lemma memcpy_u32_bound (data : list byte) : memcpy_u32 data < 2 ^ 32.
Proof.
  unfold memcpy_u32.
  pose proof (le_value_bound (firstn 4 data)) as Hb.
  pose proof (firstn_le_length 4 data) as Hl.
  assert (256 ^ N.of_nat (List.length (firstn 4 data)) <= 256 ^ 4) as Hp
    by (apply N.pow_le_mono_r; lia).
  change (256 ^ 4) with (2 ^ 32) in Hp. lia.
Qed.

Section Properties.

Context {U : Type} `{UpdateClass U}.

Lemma new_effects_app (s s' : Session U) (l : list Effect) :
  trace s' = trace s ++ l -> new_effects s s' = l.
Proof.
  intros E. unfold new_effects. rewrite E.
  rewrite skipn_app, skipn_all, Nat.sub_diag. reflexivity.
Qed.

Lemma new_effects_same (s : Session U) : new_effects s s = [].
Proof. apply new_effects_app. now rewrite app_nil_r. Qed.

Lemma update_calls_app (l1 l2 : list Effect) :
  update_calls (l1 ++ l2) = update_calls l1 ++ update_calls l2.
Proof. apply filter_app. Qed.

(** ** The branches of [handleOtaWrite], one lemma per branch *)

Ltac unfold_setters :=
  cbv [setOtaStatus abortUpdate updateProgress sendProgress sendStatus emit
       set_otaInProgress set_otaFileSize set_otaReceived set_otaStatus
       set_clientConnected set_update set_restarted
       otaInProgress otaFileSize otaReceived otaStatus clientConnected
       update trace restarted].

Ltac unfold_setters_in Hyp :=
  cbv [setOtaStatus abortUpdate updateProgress sendProgress sendStatus emit
       set_otaInProgress set_otaFileSize set_otaReceived set_otaStatus
       set_clientConnected set_update set_restarted
       otaInProgress otaFileSize otaReceived otaStatus clientConnected
       update trace restarted] in Hyp.

(** The state after a DONE frame once the size is known. *)
Lemma handleOtaWrite_DONE (s : Session U) :
  otaInProgress s = true -> otaFileSize s <> 0 ->
  handleOtaWrite OTA_CMD_DONE s =
    if negb (otaReceived s =? otaFileSize s) then
      mkSession false (otaFileSize s) (otaReceived s) ERROR (clientConnected s)
                (snd (Update_end false (update s)))
                (trace s ++ [StatusReport ERROR "Size mismatch"; UpdateEnd false])
                (restarted s)
    else if fst (Update_end true (update s)) then
      mkSession true (otaFileSize s) (otaReceived s) COMPLETED (clientConnected s)
                (snd (Update_end true (update s)))
                (trace s ++ [UpdateEnd true;
                             StatusReport COMPLETED "Update completed successfully";
                             Delay 1000; EspRestart])
                true
    else
      mkSession false (otaFileSize s) (otaReceived s) ERROR (clientConnected s)
                (snd (Update_end true (update s)))
                (trace s ++ [UpdateEnd true;
                             StatusReport ERROR "Update finalization failed"])
                (restarted s).
Proof.
  intros Hp Hs. destruct s as [p fsz rcv st cc u tr rs].
  cbn in Hp, Hs. subst p. apply N.eqb_neq in Hs.
  unfold handleOtaWrite.
  change (c_str OTA_CMD_DONE) with OTA_CMD_DONE.
  change (N.of_nat (List.length OTA_CMD_DONE)) with 4.
  change (memcmp_eq OTA_CMD_DONE OTA_CMD_OPEN 4) with false.
  change (memcmp_eq OTA_CMD_DONE OTA_CMD_DONE 4) with true.
  unfold_setters. rewrite Hs. cbn [negb andb N.eqb Pos.eqb].
  destruct (rcv =? fsz); cbn [negb];
    [destruct (fst (Update_end true u))|]; rewrite <- ?app_assoc; reflexivity.
Qed.

(** The state after an ABORT frame during a transfer. *)
Lemma handleOtaWrite_ABORT (s : Session U) :
  otaInProgress s = true ->
  handleOtaWrite OTA_CMD_ABORT s =
    mkSession false 0 0 ABORTED (clientConnected s)
              (snd (Update_end false (update s)))
              (trace s ++ [UpdateEnd false;
                           StatusReport ABORTED "Update aborted by user"])
              (restarted s).
Proof.
  intros Hp. destruct s as [p fsz rcv st cc u tr rs].
  cbn in Hp. subst p.
  unfold handleOtaWrite.
  change (c_str OTA_CMD_ABORT) with OTA_CMD_ABORT.
  change (N.of_nat (List.length OTA_CMD_ABORT)) with 5.
  change (memcmp_eq OTA_CMD_ABORT OTA_CMD_ABORT 5) with true.
  unfold_setters. cbn [negb andb N.eqb Pos.eqb].
  destruct (fsz =? 0); cbn [andb]; rewrite <- ?app_assoc; reflexivity.
Qed.

(** Without a transfer in progress only OPEN is acted upon. *)
Lemma handleOtaWrite_idle (frame : list byte) (s : Session U) :
  otaInProgress s = false -> c_str frame <> OTA_CMD_OPEN ->
  handleOtaWrite frame s = s.
Proof.
  intros Hp Hne. unfold handleOtaWrite. rewrite Hp. cbn [negb andb].
  destruct (N.of_nat (List.length (c_str frame)) =? 0); [reflexivity|].
  destruct (N.of_nat (List.length (c_str frame)) =? 4) eqn:E4; [|reflexivity].
  destruct (memcmp_eq (c_str frame) OTA_CMD_OPEN 4) eqn:Em; [|reflexivity].
  exfalso. apply Hne. apply N.eqb_eq in E4.
  apply (memcmp_eq_whole _ _ 4); [lia | reflexivity | exact Em].
Qed.

(** The state after an OPEN frame when no transfer is in progress. *)
Lemma handleOtaWrite_OPEN_idle (s : Session U) :
  otaInProgress s = false ->
  handleOtaWrite OTA_CMD_OPEN s =
    mkSession true 0 0 RECEIVING (clientConnected s) (update s)
              (trace s ++ [StatusReport RECEIVING "Update started"])
              (restarted s).
Proof.
  intros Hp. destruct s as [p fsz rcv st cc u tr rs].
  cbn in Hp. subst p. reflexivity.
Qed.

(** The size branch: in progress, size still 0, four bytes after [c_str]. *)
Lemma handleOtaWrite_size (frame : list byte) (s : Session U) :
  otaInProgress s = true -> otaFileSize s = 0 ->
  List.length (c_str frame) = 4%nat ->
  handleOtaWrite frame s =
    let size := memcpy_u32 (c_str frame) in
    let r := Update_begin size (update s) in
    if fst r then
      mkSession true size (otaReceived s) RECEIVING (clientConnected s) (snd r)
                (trace s ++ [UpdateBegin size;
                             StatusReport RECEIVING "Receiving firmware"])
                (restarted s)
    else
      mkSession false size (otaReceived s) ERROR (clientConnected s) (snd r)
                (trace s ++ [UpdateBegin size;
                             StatusReport ERROR "Not enough space"])
                (restarted s).
Proof.
  intros Hp Hs Hl. destruct s as [p fsz rcv st cc u tr rs].
  cbn in Hp, Hs. subst p fsz.
  unfold handleOtaWrite. rewrite Hl.
  unfold_setters. cbn [negb andb N.eqb Pos.eqb N.of_nat Pos.of_succ_nat Pos.succ].
  cbv zeta.
  destruct (fst (Update_begin (memcpy_u32 (c_str frame)) u));
    cbn [negb]; rewrite <- ?app_assoc; reflexivity.
Qed.

Lemma getUpdatePercentage_percentage (s : Session U) :
  getUpdatePercentage s = percentage (otaReceived s) (otaFileSize s).
Proof. reflexivity. Qed.

(** The data branch: in progress, size known, a frame that is not empty
    after [c_str] and is neither DONE nor ABORT. *)
Lemma handleOtaWrite_data (frame : list byte) (s : Session U) :
  otaInProgress s = true -> otaFileSize s <> 0 ->
  c_str frame <> [] -> c_str frame <> OTA_CMD_DONE -> c_str frame <> OTA_CMD_ABORT ->
  handleOtaWrite frame s =
    if otaReceived s <? otaFileSize s then
      let r := Update_write (c_str frame) (update s) in
      if 0 <? fst r then
        let received := wrap32 (otaReceived s + fst r) in
        mkSession true (otaFileSize s) received (otaStatus s) (clientConnected s)
                  (snd r)
                  (trace s ++
                     [UpdateWrite (c_str frame); Delay 1;
                      ProgressReport received (otaFileSize s)
                                     (percentage received (otaFileSize s))] ++
                     (if clientConnected s
                      then [ProgressNotify received (otaFileSize s)] else []))
                  (restarted s)
      else
        mkSession false (otaFileSize s) (otaReceived s) ERROR (clientConnected s)
                  (snd r)
                  (trace s ++ [UpdateWrite (c_str frame); Delay 1;
                               StatusReport ERROR "Write failed"])
                  (restarted s)
    else s.
Proof.
  intros Hp Hs Hne Hd Ha. destruct s as [p fsz rcv st cc u tr rs].
  cbn in Hp, Hs. subst p. apply N.eqb_neq in Hs.
  unfold handleOtaWrite.
  destruct (N.of_nat (List.length (c_str frame)) =? 0) eqn:E0.
  { apply N.eqb_eq in E0. destruct (c_str frame); [congruence | discriminate]. }
  cbn [otaInProgress otaFileSize negb andb]. rewrite Hs. cbn [andb].
  destruct ((N.of_nat (List.length (c_str frame)) =? 4)
            && memcmp_eq (c_str frame) OTA_CMD_DONE 4) eqn:Ed.
  { exfalso. apply andb_true_iff in Ed as [E4 Em]. apply N.eqb_eq in E4.
    apply Hd. apply (memcmp_eq_whole _ _ 4); [lia | reflexivity | exact Em]. }
  destruct ((N.of_nat (List.length (c_str frame)) =? 5)
            && memcmp_eq (c_str frame) OTA_CMD_ABORT 5) eqn:Eb.
  { exfalso. apply andb_true_iff in Eb as [E5 Em]. apply N.eqb_eq in E5.
    apply Ha. apply (memcmp_eq_whole _ _ 5); [lia | reflexivity | exact Em]. }
  cbn [otaReceived]. destruct (rcv <? fsz); [|reflexivity].
  cbv zeta. unfold getUpdatePercentage, percentage. unfold_setters.
  destruct (0 <? fst (Update_write (c_str frame) u)).
  - destruct cc; rewrite <- ?app_assoc; reflexivity.
  - rewrite <- ?app_assoc; reflexivity.
Qed.

(** What [handleOtaWrite] appends to the trace, and when a write is among it. *)
Lemma handleOtaWrite_trace (frame : list byte) (s : Session U) :
  exists l,
    trace (handleOtaWrite frame s) = trace s ++ l /\
    forall d, In (UpdateWrite d) l ->
      d = c_str frame /\ otaInProgress s = true /\
      otaReceived s < otaFileSize s /\
      (N.of_nat (List.length d) =? 4) && memcmp_eq d OTA_CMD_DONE 4 = false.
Proof.
  destruct s as [p fsz rcv st cc u tr rs].
  unfold handleOtaWrite. unfold_setters. cbv zeta.
  repeat match goal with
         | |- context [if ?c then _ else _] => destruct c eqn:?
         end;
    (eexists; split;
     [ first [ rewrite <- ?app_assoc; cbn [app]; reflexivity
             | symmetry; apply app_nil_r ]
     | intros d Hin; cbn in Hin;
       repeat match goal with
              | Hi : _ \/ _ |- _ => destruct Hi as [Hi | Hi]
              end;
       try discriminate; try contradiction ]).
  all: match goal with Hi : UpdateWrite _ = UpdateWrite _ |- _ =>
         injection Hi as <- end.
  all: repeat split; try reflexivity; try assumption;
       now apply N.ltb_lt.
Qed.

(** ** The flag and the status

    [handleOtaWrite] branches on the flag [otaInProgress]; the status is
    what is reported.  On a running device the two agree: a transfer is in
    progress exactly when the status is RECEIVING. *)

Lemma dispatch_flag_status (s : Session U) (e : Event) :
  (restarted s = false -> (otaInProgress s = true <-> otaStatus s = RECEIVING)) ->
  restarted (dispatch s e) = false ->
  (otaInProgress (dispatch s e) = true <-> otaStatus (dispatch s e) = RECEIVING).
Proof.
  unfold dispatch. destruct (restarted s) eqn:Hr; [intros _ Hf; congruence|].
  intros Hinv. specialize (Hinv eq_refl).
  destruct s as [p fsz rcv st cc u tr rs]. cbn in Hinv, Hr. subst rs.
  destruct e as [frame| |].
  - unfold handleOtaWrite. unfold_setters. cbv zeta.
    repeat match goal with
           | |- context [if ?c then _ else _] => destruct c eqn:?
           end;
      cbn; intros Hf; try exact Hinv; try discriminate Hf;
      split; intros E; try reflexivity; try discriminate E.
  - unfold onClientConnect. unfold_setters. cbn. intros _. exact Hinv.
  - unfold onClientDisconnect. unfold_setters.
    destruct p; cbn; intros _; [|exact Hinv].
    split; intros E; discriminate E.
Qed.

(** X21: on every run of frames and connection events from the constructed
    session, as long as the device has not restarted, a transfer is in
    progress exactly when the status is RECEIVING. *)
Lemma run_flag_status (u : U) (events : list Event) :
  restarted (run (initial u) events) = false ->
  (otaInProgress (run (initial u) events) = true
   <-> otaStatus (run (initial u) events) = RECEIVING).
Proof.
  assert (forall evs (s : Session U),
             (restarted s = false ->
              (otaInProgress s = true <-> otaStatus s = RECEIVING)) ->
             restarted (run s evs) = false ->
             (otaInProgress (run s evs) = true <-> otaStatus (run s evs) = RECEIVING))
    as Hgen.
  { induction evs as [|e evs IH]; intros s Hinv Hf.
    - now apply Hinv.
    - cbn [run fold_left] in *. apply IH; [|exact Hf].
      intros Hd. now apply dispatch_flag_status. }
  apply Hgen. intros _. cbn. split; discriminate.
Qed.

(** ** DONE with a size mismatch *)

(** C4: when a DONE frame arrives during a transfer whose size is known and
    the received count differs from the declared size, the session ends in
    ERROR, reports "Size mismatch", calls [Update.end(false)] and nothing
    else on the updater, and leaves both counters as they were. *)
Theorem done_size_mismatch_fails (s : Session U) :
  otaInProgress s = true ->
  otaFileSize s <> 0 ->
  otaReceived s <> otaFileSize s ->
  otaStatus (handleOtaWrite OTA_CMD_DONE s) = ERROR /\
  new_effects s (handleOtaWrite OTA_CMD_DONE s)
    = [StatusReport ERROR "Size mismatch"; UpdateEnd false] /\
  update (handleOtaWrite OTA_CMD_DONE s) = snd (Update_end false (update s)) /\
  otaReceived (handleOtaWrite OTA_CMD_DONE s) = otaReceived s /\
  otaFileSize (handleOtaWrite OTA_CMD_DONE s) = otaFileSize s /\
  otaInProgress (handleOtaWrite OTA_CMD_DONE s) = false.
Proof.
  intros Hp Hs Hne.
  pose proof (handleOtaWrite_DONE s Hp Hs) as E.
  apply N.eqb_neq in Hne. rewrite Hne in E. cbn [negb] in E.
  rewrite E. cbn.
  repeat split. now apply new_effects_app.
Qed.

(** ** ABORT *)

(** C7: an ABORT frame during a transfer makes exactly one call on the
    updater, [Update.end(false)], and leaves the session ABORTED with both
    counters reset; an ABORT frame when no transfer is in progress leaves
    the session, the updater and the trace unchanged. *)
Theorem abort_frame_handling (s : Session U) :
  (otaInProgress s = true ->
   update_calls (new_effects s (handleOtaWrite OTA_CMD_ABORT s)) = [UpdateEnd false] /\
   update (handleOtaWrite OTA_CMD_ABORT s) = snd (Update_end false (update s)) /\
   otaStatus (handleOtaWrite OTA_CMD_ABORT s) = ABORTED /\
   otaInProgress (handleOtaWrite OTA_CMD_ABORT s) = false /\
   otaFileSize (handleOtaWrite OTA_CMD_ABORT s) = 0 /\
   otaReceived (handleOtaWrite OTA_CMD_ABORT s) = 0) /\
  (otaInProgress s = false -> handleOtaWrite OTA_CMD_ABORT s = s).
Proof.
  split.
  - intros Hp. rewrite (handleOtaWrite_ABORT s Hp). cbn.
    repeat split.
    erewrite new_effects_app; [|reflexivity]. reflexivity.
  - intros Hp. apply handleOtaWrite_idle; [exact Hp | discriminate].
Qed.

(** ** Disconnect *)

(** C8: a disconnect during a transfer reaches the session an ABORT frame
    reaches at the same point: the updater gets the one call
    [Update.end(false)], the status is ABORTED, both counters are 0 and no
    transfer is in progress.  The two sessions differ only in what the
    disconnect itself adds: the connection flag is cleared, the connection
    is reported and advertising restarts. *)
Theorem disconnect_same_as_abort (s : Session U) :
  otaInProgress s = true ->
  onClientDisconnect s
    = emit StartAdvertising
        (emit (ConnectionReport false)
           (set_clientConnected false (handleOtaWrite OTA_CMD_ABORT s))) /\
  otaStatus (onClientDisconnect s) = otaStatus (handleOtaWrite OTA_CMD_ABORT s) /\
  otaInProgress (onClientDisconnect s) = otaInProgress (handleOtaWrite OTA_CMD_ABORT s) /\
  otaFileSize (onClientDisconnect s) = otaFileSize (handleOtaWrite OTA_CMD_ABORT s) /\
  otaReceived (onClientDisconnect s) = otaReceived (handleOtaWrite OTA_CMD_ABORT s) /\
  update (onClientDisconnect s) = update (handleOtaWrite OTA_CMD_ABORT s) /\
  update_calls (new_effects s (onClientDisconnect s))
    = update_calls (new_effects s (handleOtaWrite OTA_CMD_ABORT s)) /\
  update_calls (new_effects s (onClientDisconnect s)) = [UpdateEnd false] /\
  otaStatus (onClientDisconnect s) = ABORTED /\
  otaInProgress (onClientDisconnect s) = false /\
  otaFileSize (onClientDisconnect s) = 0 /\
  otaReceived (onClientDisconnect s) = 0 /\
  clientConnected (onClientDisconnect s) = false.
Proof.
  intros Hp. rewrite (handleOtaWrite_ABORT s Hp).
  destruct s as [p fsz rcv st cc u tr rs]. cbn in Hp. subst p.
  unfold onClientDisconnect. unfold_setters.
  repeat split.
  all: unfold new_effects; cbn [trace]; rewrite <- ?app_assoc; cbn [app];
    rewrite ?skipn_app, ?skipn_all, ?Nat.sub_diag; reflexivity.
Qed.

(** ** DONE is always a command *)

(** C10: during a transfer whose size is known, a frame of the four bytes
    "DONE" is taken as the finalize command: the only call on the updater is
    [Update.end], no [Update.write] is made, the received count does not
    advance and the session leaves RECEIVING.  There is no way around it:
    no frame, in any state, makes [handleOtaWrite] pass the four bytes
    "DONE" as a chunk to [Update.write]. *)
Theorem done_chunk_never_written (s : Session U) :
  (otaInProgress s = true -> otaFileSize s <> 0 ->
   update_calls (new_effects s (handleOtaWrite OTA_CMD_DONE s))
     = [UpdateEnd (otaReceived s =? otaFileSize s)] /\
   filter is_update_write (new_effects s (handleOtaWrite OTA_CMD_DONE s)) = [] /\
   otaReceived (handleOtaWrite OTA_CMD_DONE s) = otaReceived s /\
   otaStatus (handleOtaWrite OTA_CMD_DONE s) <> RECEIVING) /\
  (forall frame : list byte,
     ~ In (UpdateWrite OTA_CMD_DONE) (new_effects s (handleOtaWrite frame s))).
Proof.
  split.
  - intros Hp Hs. rewrite (handleOtaWrite_DONE s Hp Hs).
    destruct (otaReceived s =? otaFileSize s); cbn [negb];
      [destruct (fst (Update_end true (update s)))|];
      (erewrite new_effects_app; [|reflexivity]); cbn;
      repeat split; discriminate.
  - intros frame Hin.
    destruct (handleOtaWrite_trace frame s) as [l [Et Hw]].
    rewrite (new_effects_app _ _ _ Et) in Hin.
    apply Hw in Hin as (_ & _ & _ & Hd). discriminate Hd.
Qed.

(** ** DONE before and after the size frame *)


(** ** OPEN during a transfer *)

(** C5, as the code has it: an OPEN frame opens a session (both counters
    reset, status RECEIVING, no call on the updater) only when no transfer
    is in progress.  During a transfer it is not a command: before the size
    frame it is taken as the size frame (size 0x4E45504F = 1313165391, one
    [Update.begin] with it), and once the size is known it is handled as
    firmware data (passed to [Update.write] while the received count is
    below the size, dropped otherwise); the size is kept and
    [Update.end] is not called. *)
Theorem open_frame_handling (s : Session U) :
  (otaInProgress s = false ->
   handleOtaWrite OTA_CMD_OPEN s
     = mkSession true 0 0 RECEIVING (clientConnected s) (update s)
                 (trace s ++ [StatusReport RECEIVING "Update started"])
                 (restarted s)) /\
  (otaInProgress s = true -> otaFileSize s = 0 ->
   update_calls (new_effects s (handleOtaWrite OTA_CMD_OPEN s))
     = [UpdateBegin 1313165391] /\
   otaFileSize (handleOtaWrite OTA_CMD_OPEN s) = 1313165391 /\
   otaReceived (handleOtaWrite OTA_CMD_OPEN s) = otaReceived s) /\
  (otaInProgress s = true -> otaFileSize s <> 0 ->
   update_calls (new_effects s (handleOtaWrite OTA_CMD_OPEN s))
     = (if otaReceived s <? otaFileSize s then [UpdateWrite OTA_CMD_OPEN] else []) /\
   otaFileSize (handleOtaWrite OTA_CMD_OPEN s) = otaFileSize s /\
   ((otaReceived s <? otaFileSize s) = false -> handleOtaWrite OTA_CMD_OPEN s = s)).
Proof.
  split; [|split].
  - apply handleOtaWrite_OPEN_idle.
  - intros Hp Hs. rewrite (handleOtaWrite_size OTA_CMD_OPEN s Hp Hs eq_refl).
    change (memcpy_u32 (c_str OTA_CMD_OPEN)) with 1313165391. cbv zeta.
    destruct (fst (Update_begin 1313165391 (update s)));
      (erewrite new_effects_app; [|reflexivity]); cbn; auto.
  - intros Hp Hs.
    assert (handleOtaWrite OTA_CMD_OPEN s = _) as E
      by (apply (handleOtaWrite_data OTA_CMD_OPEN s Hp Hs); discriminate).
    rewrite E. clear E. change (c_str OTA_CMD_OPEN) with OTA_CMD_OPEN.
    destruct (otaReceived s <? otaFileSize s).
    + cbv zeta. destruct (0 <? fst (Update_write OTA_CMD_OPEN (update s)));
        (erewrite new_effects_app; [|reflexivity]); cbn [otaFileSize].
      * destruct (clientConnected s); cbn; repeat split; discriminate.
      * cbn; repeat split; discriminate.
    + rewrite new_effects_same. auto.
Qed.

(** ** The received count and the declared size *)

(** A frame step either makes no write and keeps the count within the
    size, or is the data branch: one write of the cut frame, made with the
    count below the size, the size kept, the count advanced by what the
    updater reports when that is positive. *)
Lemma handleOtaWrite_write_or_not (frame : list byte) (s : Session U) :
  otaFileSize s < 2 ^ 32 ->
  otaReceived s <= otaFileSize s ->
  ((forall d, ~ In (UpdateWrite d) (new_effects s (handleOtaWrite frame s))) /\
   otaFileSize (handleOtaWrite frame s) < 2 ^ 32 /\
   otaReceived (handleOtaWrite frame s) <= otaFileSize (handleOtaWrite frame s)) \/
  ((forall d, In (UpdateWrite d) (new_effects s (handleOtaWrite frame s)) ->
      d = c_str frame) /\
   In (UpdateWrite (c_str frame)) (new_effects s (handleOtaWrite frame s)) /\
   otaReceived s < otaFileSize s /\
   otaFileSize (handleOtaWrite frame s) = otaFileSize s /\
   otaReceived (handleOtaWrite frame s)
     = (if 0 <? fst (Update_write (c_str frame) (update s))
        then wrap32 (otaReceived s + fst (Update_write (c_str frame) (update s)))
        else otaReceived s)).
Proof.
  intros Hb Hle.
  pose proof (memcpy_u32_bound (c_str frame)) as Hub.
  destruct s as [p fsz rcv st cc u tr rs]. cbn in Hb, Hle.
  unfold handleOtaWrite. unfold_setters. cbv zeta.
  repeat match goal with
         | |- context [if ?c then _ else _] => destruct c eqn:?
         end;
    (first [ rewrite !new_effects_same
           | erewrite !new_effects_app;
             [|cbn [trace]; rewrite <- ?app_assoc; cbn [app]; reflexivity ..] ]);
    cbn [otaFileSize otaReceived update].
  all: first
    [ left; repeat apply conj; try assumption; try lia;
      [ intros d Hin; cbn [In] in Hin;
        repeat match goal with
               | Hi : _ \/ _ |- _ => destruct Hi as [Hi | Hi]
               end;
        try discriminate; contradiction
      | .. ];
      match goal with
      | Hz : (?a =? 0) && _ = true |- _ =>
          apply andb_true_iff in Hz as [Hz _]; apply N.eqb_eq in Hz; lia
      end
    | left; repeat apply conj; try assumption; try lia;
      intros d Hin; cbn [In] in Hin;
      repeat match goal with
             | Hi : _ \/ _ |- _ => destruct Hi as [Hi | Hi]
             end;
      try discriminate; contradiction
    | right; repeat apply conj; try reflexivity;
      [ intros d Hin; cbn [In] in Hin;
        repeat match goal with
               | Hi : _ \/ _ |- _ => destruct Hi as [Hi | Hi]
               end;
        try discriminate; try contradiction;
        now injection Hin as <-
      | now left
      | now apply N.ltb_lt ] ].
Qed.

(** C2, as the code has it: [handleOtaWrite] does not clamp.  From a
    session with [otaReceived <= otaFileSize < 2^32], a step (frame,
    connect, disconnect) makes a write only while the received count is
    below the size; such a step keeps the size and advances the count by
    what the updater reports for that write, modulo 2^32.  So
    [otaReceived <= otaFileSize] holds after every step on which each write
    actually made reports no more than the bytes that remain,
    [otaFileSize - otaReceived]; a step that makes no write keeps it
    whatever the updater would report.  When a write reports more than
    what remains and the 32-bit sum does not wrap, the count ends above the
    size. *)
Theorem received_within_size_step (s : Session U) (e : Event) :
  otaFileSize s < 2 ^ 32 ->
  otaReceived s <= otaFileSize s ->
  (forall d, In (UpdateWrite d) (new_effects s (dispatch s e)) ->
     otaReceived s < otaFileSize s /\
     otaFileSize (dispatch s e) = otaFileSize s /\
     otaReceived (dispatch s e)
       = wrap32 (otaReceived s + fst (Update_write d (update s))) /\
     (otaFileSize s - otaReceived s < fst (Update_write d (update s)) ->
      otaReceived s + fst (Update_write d (update s)) < 2 ^ 32 ->
      otaFileSize (dispatch s e) < otaReceived (dispatch s e))) /\
  otaFileSize (dispatch s e) < 2 ^ 32 /\
  ((forall d, In (UpdateWrite d) (new_effects s (dispatch s e)) ->
      fst (Update_write d (update s)) <= otaFileSize s - otaReceived s) ->
   otaReceived (dispatch s e) <= otaFileSize (dispatch s e)).
Proof.
  intros Hb Hle. unfold dispatch.
  destruct (restarted s) eqn:Hr.
  { rewrite new_effects_same. repeat apply conj; auto.
    intros d []. }
  destruct e as [frame| |].
  - destruct (handleOtaWrite_write_or_not frame s Hb Hle)
      as [(Hno & Hb' & Hle') | (Hd & Hin & Hlt & Hf & Hrc)].
    + repeat apply conj; auto.
      intros d Hw. now apply Hno in Hw.
    + assert (otaReceived (handleOtaWrite frame s)
              = wrap32 (otaReceived s + fst (Update_write (c_str frame) (update s))))
        as Hrc'.
      { rewrite Hrc.
        destruct (0 <? fst (Update_write (c_str frame) (update s))) eqn:E;
          [reflexivity|].
        apply N.ltb_ge in E. unfold wrap32. rewrite N.mod_small; lia. }
      repeat apply conj.
      * intros d Hw. apply Hd in Hw. subst d.
        repeat apply conj; try assumption.
        intros Hover Hsum. rewrite Hrc', Hf. unfold wrap32.
        rewrite N.mod_small; lia.
      * now rewrite Hf.
      * intros Hbound. specialize (Hbound _ Hin).
        rewrite Hrc', Hf. unfold wrap32. rewrite N.mod_small; lia.
  - destruct s as [p fsz rcv st cc u tr rs]. cbn in Hb, Hle.
    unfold onClientConnect. unfold_setters.
    destruct cc;
      (erewrite new_effects_app;
       [|cbn [trace]; rewrite <- ?app_assoc; cbn [app]; reflexivity]);
      cbn [otaFileSize otaReceived];
      (repeat apply conj; auto);
      intros d Hin; cbn [In] in Hin; intuition discriminate.
  - destruct s as [p fsz rcv st cc u tr rs]. cbn in Hb, Hle.
    unfold onClientDisconnect. unfold_setters.
    destruct p;
      (erewrite new_effects_app;
       [|cbn [trace]; rewrite <- ?app_assoc; cbn [app]; reflexivity]);
      cbn [otaFileSize otaReceived];
      (repeat apply conj; auto; try lia);
      intros d Hin; cbn [In] in Hin; intuition discriminate.
Qed.

(** ** Data frames *)

(** X19: a frame without NUL bytes that is not a command is passed whole to
    [Update.write] while the received count is below the size, whatever its
    length. *)
Lemma data_frame_forwarded (frame : list byte) (s : Session U) :
  otaInProgress s = true -> otaFileSize s <> 0 ->
  otaReceived s < otaFileSize s ->
  nul_free frame -> frame <> [] ->
  frame <> OTA_CMD_DONE -> frame <> OTA_CMD_ABORT ->
  update_calls (new_effects s (handleOtaWrite frame s)) = [UpdateWrite frame].
Proof.
  intros Hp Hs Hlt Hn Hne Hd Ha.
  pose proof (c_str_nul_free frame Hn) as Ec.
  assert (handleOtaWrite frame s = _) as E
    by (apply (handleOtaWrite_data frame s Hp Hs); now rewrite Ec).
  rewrite E. clear E. rewrite Ec.
  apply N.ltb_lt in Hlt. rewrite Hlt. cbv zeta.
  destruct (0 <? fst (Update_write frame (update s)));
    (erewrite new_effects_app; [|reflexivity]).
  - destruct (clientConnected s); reflexivity.
  - reflexivity.
Qed.

(** X20: whatever the frame, the bytes handed to [Update.write] are the frame
    cut at its first NUL byte: no zero byte ever reaches the updater. *)
Lemma write_gets_c_str (frame : list byte) (s : Session U) (d : list byte) :
  In (UpdateWrite d) (new_effects s (handleOtaWrite frame s)) ->
  d = c_str frame /\ nul_free d.
Proof.
  intros Hin. destruct (handleOtaWrite_trace frame s) as [l [Et Hl]].
  rewrite (new_effects_app _ _ _ Et) in Hin.
  apply Hl in Hin as (-> & _). split; [reflexivity | apply c_str_is_nul_free].
Qed.

(** ** The percentage *)

Lemma percentage_zero_total (received : N) : percentage received 0 = 0.
Proof. reflexivity. Qed.

(** Without overflow of the 32-bit product and with a quotient that fits
    eight bits, the percentage is the floor of [received * 100 / total]. *)
Lemma percentage_in_range (received total : N) :
  total <> 0 -> received * 100 < 2 ^ 32 -> received * 100 / total < 2 ^ 8 ->
  percentage received total = received * 100 / total.
Proof.
  intros Ht Hm Hq. unfold percentage, wrap8, wrap32.
  apply N.eqb_neq in Ht. rewrite Ht.
  rewrite (N.mod_small (received * 100)) by exact Hm.
  now apply N.mod_small.
Qed.

Lemma percentage_within_size (received total : N) :
  total <> 0 -> received <= total -> total * 100 < 2 ^ 32 ->
  percentage received total = received * 100 / total.
Proof.
  intros Ht Hle Hm. apply percentage_in_range; [exact Ht | lia |].
  assert (received * 100 / total <= 100); [|lia].
  apply N.Div0.div_le_upper_bound. lia.
Qed.

(** ** A whole transfer *)

Lemma total_length_cons (c : list byte) (chunks : list (list byte)) :
  total_length (c :: chunks) = N.of_nat (List.length c) + total_length chunks.
Proof.
  unfold total_length. cbn [List.concat]. rewrite List.length_app. lia.
Qed.

Lemma run_app (s : Session U) (l1 l2 : list Event) :
  run s (l1 ++ l2) = run (run s l1) l2.
Proof. apply fold_left_app. Qed.

Lemma to_N_zero (b : byte) : Byte.to_N b = 0 -> b = x00.
Proof.
  intros E. pose proof (Byte.of_to_N b) as Hb. rewrite E in Hb.
  cbn in Hb. congruence.
Qed.

Lemma le_value_nul_free (bs : list byte) :
  nul_free bs -> bs <> [] -> le_value bs <> 0.
Proof.
  unfold nul_free. destruct bs as [|b rest]; [congruence|].
  intros Hn _. cbn [le_value].
  assert (Byte.to_N b <> 0); [|lia].
  intros E. apply Hn. left. now apply to_N_zero.
Qed.

(** The data phase: every chunk is written and counted. *)
Lemma run_data_chunks (chunks : list (list byte)) :
  cooperative ->
  Forall data_chunk chunks ->
  forall s : Session U,
    otaInProgress s = true -> restarted s = false ->
    otaFileSize s < 2 ^ 32 ->
    otaReceived s + total_length chunks <= otaFileSize s ->
    otaInProgress (run s (map OtaWrite chunks)) = true /\
    restarted (run s (map OtaWrite chunks)) = false /\
    otaFileSize (run s (map OtaWrite chunks)) = otaFileSize s /\
    otaReceived (run s (map OtaWrite chunks)) = otaReceived s + total_length chunks /\
    otaStatus (run s (map OtaWrite chunks)) = otaStatus s /\
    exists l, trace (run s (map OtaWrite chunks)) = trace s ++ l /\
              update_calls l = map UpdateWrite chunks.
Proof.
  intros (_ & Hwr & _) Hall.
  induction Hall as [|c chunks (Hn & Hne & Hd & Ha) _ IH]; intros s Hp Hr Hb Hsum.
  - cbn. unfold total_length. cbn. rewrite N.add_0_r.
    repeat apply conj; try reflexivity; try assumption.
    exists []. now rewrite app_nil_r.
  - rewrite total_length_cons in Hsum.
    assert (0 < N.of_nat (List.length c)) as Hpos
      by (destruct c; [congruence | cbn [List.length]; lia]).
    assert (otaFileSize s <> 0) as Hs by lia.
    cbn [map run fold_left]. fold (run (dispatch s (OtaWrite c)) (map OtaWrite chunks)).
    assert (dispatch s (OtaWrite c) = handleOtaWrite c s) as Ed
      by (unfold dispatch; now rewrite Hr).
    rewrite Ed. clear Ed.
    pose proof (c_str_nul_free c Hn) as Ec.
    assert (handleOtaWrite c s = _) as E
      by (apply (handleOtaWrite_data c s Hp Hs); now rewrite Ec).
    rewrite Ec in E.
    assert ((otaReceived s <? otaFileSize s) = true) as Hlt by (apply N.ltb_lt; lia).
    rewrite Hlt in E. cbv zeta in E. rewrite Hwr in E.
    apply N.ltb_lt in Hpos. rewrite Hpos in E. apply N.ltb_lt in Hpos.
    unfold wrap32 in E. rewrite N.mod_small in E by lia.
    rewrite E. clear E.
    match goal with |- context [run ?s1 _] => set (s1' := s1) end.
    destruct (IH s1') as (Hp' & Hr' & Hf' & Hc' & Hst' & l & Hl & Hu');
      try (subst s1'; cbn; first [reflexivity | assumption | lia]).
    rewrite Hp', Hr', Hf', Hc', Hst', Hl. subst s1'. cbn.
    rewrite total_length_cons.
    repeat apply conj; try reflexivity; try lia.
    eexists. split; [rewrite <- app_assoc; reflexivity|].
    rewrite update_calls_app, Hu'.
    destruct (clientConnected s); reflexivity.
Qed.

(** X18: for frames the handler reads whole (no NUL byte in the size frame or in
    a chunk, no chunk equal to a command marker) and a cooperative updater,
    OPEN, size, chunks summing to the size, DONE ends COMPLETED with
    exactly one [Update.begin] with the declared size, one [Update.write] per
    chunk and one [Update.end(true)]. *)
Theorem transfer_of_nul_free_frames_completes
    (s0 : Session U) (size_bytes : list byte) (chunks : list (list byte)) :
  cooperative ->
  otaInProgress s0 = false -> restarted s0 = false ->
  List.length size_bytes = 4%nat -> nul_free size_bytes ->
  Forall data_chunk chunks ->
  total_length chunks = memcpy_u32 size_bytes ->
  let s' := run s0 (OtaWrite OTA_CMD_OPEN :: OtaWrite size_bytes ::
                    map OtaWrite chunks ++ [OtaWrite OTA_CMD_DONE]) in
  otaStatus s' = COMPLETED /\
  otaReceived s' = memcpy_u32 size_bytes /\
  otaFileSize s' = memcpy_u32 size_bytes /\
  update_calls (new_effects s0 s')
    = UpdateBegin (memcpy_u32 size_bytes) :: map UpdateWrite chunks ++ [UpdateEnd true].
Proof.
  intros Hco Hp0 Hr0 Hlen Hn Hall Hsum s'. subst s'.
  pose proof Hco as (Hbe & _ & Hen).
  change (OtaWrite OTA_CMD_OPEN :: OtaWrite size_bytes ::
          map OtaWrite chunks ++ [OtaWrite OTA_CMD_DONE])
    with ([OtaWrite OTA_CMD_OPEN; OtaWrite size_bytes] ++
          map OtaWrite chunks ++ [OtaWrite OTA_CMD_DONE]).
  rewrite !run_app.
  pose proof (c_str_nul_free size_bytes Hn) as Ec.
  (* OPEN, then the size frame *)
  assert (run s0 [OtaWrite OTA_CMD_OPEN; OtaWrite size_bytes]
          = mkSession true (memcpy_u32 size_bytes) 0 RECEIVING (clientConnected s0)
                      (snd (Update_begin (memcpy_u32 size_bytes) (update s0)))
                      (trace s0 ++ [StatusReport RECEIVING "Update started";
                                    UpdateBegin (memcpy_u32 size_bytes);
                                    StatusReport RECEIVING "Receiving firmware"])
                      false) as E1.
  { unfold run. cbn [fold_left]. unfold dispatch. rewrite Hr0.
    rewrite (handleOtaWrite_OPEN_idle s0 Hp0). cbn [restarted]. rewrite Hr0.
    rewrite handleOtaWrite_size; [|reflexivity|reflexivity|now rewrite Ec].
    rewrite Ec. cbv zeta. rewrite Hbe. cbn [otaReceived clientConnected update trace].
    now rewrite <- app_assoc. }
  rewrite E1. clear E1.
  match goal with |- context [run ?s1 (map OtaWrite chunks)] => set (s1' := s1) end.
  assert (memcpy_u32 size_bytes <> 0) as Hnz.
  { unfold memcpy_u32. rewrite <- Hlen, firstn_all.
    apply le_value_nul_free; [exact Hn | destruct size_bytes; discriminate]. }
  pose proof (memcpy_u32_bound size_bytes) as Hbd.
  destruct (run_data_chunks chunks Hco Hall s1')
    as (Hp' & Hr' & Hf' & Hc' & Hst' & l & Hl & Hu');
    try (subst s1'; cbn [otaInProgress restarted otaFileSize otaReceived];
         first [reflexivity | lia]).
  set (s2 := run s1' (map OtaWrite chunks)) in *.
  assert (otaFileSize s2 <> 0) as Hs2 by (rewrite Hf'; subst s1'; exact Hnz).
  (* DONE *)
  assert (run s2 [OtaWrite OTA_CMD_DONE] = handleOtaWrite OTA_CMD_DONE s2) as E3
    by (unfold run; cbn [fold_left]; unfold dispatch; now rewrite Hr').
  rewrite E3. clear E3.
  rewrite (handleOtaWrite_DONE s2 Hp' Hs2).
  assert ((otaReceived s2 =? otaFileSize s2) = true) as Heq
    by (apply N.eqb_eq; rewrite Hc', Hf'; subst s1'; cbn [otaReceived otaFileSize]; lia).
  rewrite Heq. cbn [negb]. rewrite Hen.
  cbn [otaStatus otaReceived otaFileSize].
  rewrite Hc', Hf'. subst s1'. cbn [otaReceived otaFileSize].
  repeat apply conj; try reflexivity; try lia.
  erewrite new_effects_app.
  2:{ cbn [trace]. rewrite Hl. cbn [trace]. rewrite <- !app_assoc. reflexivity. }
  rewrite !update_calls_app, Hu'. reflexivity.
Qed.

End Properties.

(** ** Witnesses *)

Lemma done_size_mismatch_fails_witness :
  (otaInProgress receiving8 = true /\ otaFileSize receiving8 <> 0 /\
   otaReceived receiving8 <> otaFileSize receiving8) /\
  otaStatus (handleOtaWrite OTA_CMD_DONE receiving8) = ERROR /\
  new_effects receiving8 (handleOtaWrite OTA_CMD_DONE receiving8)
    = [StatusReport ERROR "Size mismatch"; UpdateEnd false] /\
  update (handleOtaWrite OTA_CMD_DONE receiving8)
    = snd (Update_end false (update receiving8)) /\
  otaReceived (handleOtaWrite OTA_CMD_DONE receiving8) = otaReceived receiving8 /\
  otaFileSize (handleOtaWrite OTA_CMD_DONE receiving8) = otaFileSize receiving8 /\
  otaInProgress (handleOtaWrite OTA_CMD_DONE receiving8) = false.
Proof.
  assert (otaInProgress receiving8 = true) as Hp by reflexivity.
  assert (otaFileSize receiving8 <> 0) as Hs by (vm_compute; discriminate).
  assert (otaReceived receiving8 <> otaFileSize receiving8) as Hne
    by (vm_compute; discriminate).
  exact (conj (conj Hp (conj Hs Hne))
              (done_size_mismatch_fails receiving8 Hp Hs Hne)).
Defined.

Lemma abort_frame_handling_witness :
  (otaInProgress receiving8 = true /\
   update_calls (new_effects receiving8 (handleOtaWrite OTA_CMD_ABORT receiving8))
     = [UpdateEnd false] /\
   otaStatus (handleOtaWrite OTA_CMD_ABORT receiving8) = ABORTED) /\
  (otaInProgress booted = false /\ handleOtaWrite OTA_CMD_ABORT booted = booted).
Proof.
  assert (otaInProgress receiving8 = true) as Hp by reflexivity.
  assert (otaInProgress booted = false) as Hi by reflexivity.
  pose proof (proj1 (abort_frame_handling receiving8) Hp) as (Hc & _ & Hst & _).
  pose proof (proj2 (abort_frame_handling booted) Hi) as Hn.
  exact (conj (conj Hp (conj Hc Hst)) (conj Hi Hn)).
Defined.

Lemma disconnect_same_as_abort_witness :
  otaInProgress receiving8 = true /\
  otaStatus (onClientDisconnect receiving8)
    = otaStatus (handleOtaWrite OTA_CMD_ABORT receiving8) /\
  update_calls (new_effects receiving8 (onClientDisconnect receiving8))
    = [UpdateEnd false].
Proof.
  assert (otaInProgress receiving8 = true) as Hp by reflexivity.
  pose proof (disconnect_same_as_abort receiving8 Hp)
    as (_ & Hst & _ & _ & _ & _ & _ & Hc & _).
  exact (conj Hp (conj Hst Hc)).
Defined.

Lemma done_chunk_never_written_witness :
  (otaInProgress receiving8 = true /\ otaFileSize receiving8 <> 0) /\
  filter is_update_write (new_effects receiving8 (handleOtaWrite OTA_CMD_DONE receiving8))
    = [] /\
  otaReceived (handleOtaWrite OTA_CMD_DONE receiving8) = otaReceived receiving8.
Proof.
  assert (otaInProgress receiving8 = true) as Hp by reflexivity.
  assert (otaFileSize receiving8 <> 0) as Hs by (vm_compute; discriminate).
  pose proof (proj1 (done_chunk_never_written receiving8) Hp Hs) as (_ & Hw & Hr & _).
  exact (conj (conj Hp Hs) (conj Hw Hr)).
Defined.


Lemma open_frame_handling_witness :
  (otaInProgress booted = false /\
   otaInProgress (handleOtaWrite OTA_CMD_OPEN booted) = true) /\
  (otaInProgress opened = true /\ otaFileSize opened = 0 /\
   otaFileSize (handleOtaWrite OTA_CMD_OPEN opened) = 1313165391) /\
  (otaInProgress receiving8 = true /\ otaFileSize receiving8 <> 0 /\
   otaFileSize (handleOtaWrite OTA_CMD_OPEN receiving8) = otaFileSize receiving8).
Proof.
  assert (otaInProgress booted = false) as Hi by reflexivity.
  assert (otaInProgress opened = true) as Hp' by reflexivity.
  assert (otaFileSize opened = 0) as Hs' by reflexivity.
  assert (otaInProgress receiving8 = true) as Hp by reflexivity.
  assert (otaFileSize receiving8 <> 0) as Hs by (vm_compute; discriminate).
  pose proof (proj1 (open_frame_handling booted) Hi) as E.
  pose proof (proj1 (proj2 (open_frame_handling opened)) Hp' Hs') as (_ & Hf' & _).
  pose proof (proj2 (proj2 (open_frame_handling receiving8)) Hp Hs) as (_ & Hf & _).
  refine (conj (conj Hi _) (conj (conj Hp' (conj Hs' Hf')) (conj Hp (conj Hs Hf)))).
  rewrite E. reflexivity.
Defined.

Lemma received_within_size_step_witness :
  (* a data frame during a transfer *)
  ((otaFileSize receiving8 < 2 ^ 32 /\ otaReceived receiving8 <= otaFileSize receiving8) /\
   otaReceived (dispatch receiving8 (OtaWrite [x21; x22]))
     <= otaFileSize (dispatch receiving8 (OtaWrite [x21; x22]))) /\
  (* steps that make no write: OPEN, the size frame, DONE *)
  ((otaFileSize booted < 2 ^ 32 /\ otaReceived booted <= otaFileSize booted) /\
   otaReceived (dispatch booted (OtaWrite OTA_CMD_OPEN))
     <= otaFileSize (dispatch booted (OtaWrite OTA_CMD_OPEN))) /\
  ((otaFileSize opened < 2 ^ 32 /\ otaReceived opened <= otaFileSize opened) /\
   otaReceived (dispatch opened (OtaWrite [x09; x01; x01; x01]))
     <= otaFileSize (dispatch opened (OtaWrite [x09; x01; x01; x01]))) /\
  ((otaFileSize all_received < 2 ^ 32 /\
    otaReceived all_received <= otaFileSize all_received) /\
   otaReceived (dispatch all_received (OtaWrite OTA_CMD_DONE))
     <= otaFileSize (dispatch all_received (OtaWrite OTA_CMD_DONE))).
Proof.
  assert (otaFileSize receiving8 < 2 ^ 32) as Hb1 by reflexivity.
  assert (otaReceived receiving8 <= otaFileSize receiving8) as Hle1
    by (vm_compute; discriminate).
  assert (forall d,
             In (UpdateWrite d)
                (new_effects receiving8 (dispatch receiving8 (OtaWrite [x21; x22]))) ->
             fst (Update_write d (update receiving8))
               <= otaFileSize receiving8 - otaReceived receiving8) as Hw1.
  { intros d Hin. vm_compute in Hin.
    destruct Hin as [E | [E | [E | []]]]; try discriminate E.
    injection E as <-. vm_compute. discriminate. }
  assert (otaFileSize booted < 2 ^ 32) as Hb2 by reflexivity.
  assert (otaReceived booted <= otaFileSize booted) as Hle2
    by (vm_compute; discriminate).
  assert (forall d,
             In (UpdateWrite d)
                (new_effects booted (dispatch booted (OtaWrite OTA_CMD_OPEN))) ->
             fst (Update_write d (update booted))
               <= otaFileSize booted - otaReceived booted) as Hw2.
  { intros d Hin. vm_compute in Hin.
    destruct Hin as [E | []]. discriminate E. }
  assert (otaFileSize opened < 2 ^ 32) as Hb3 by reflexivity.
  assert (otaReceived opened <= otaFileSize opened) as Hle3
    by (vm_compute; discriminate).
  assert (forall d,
             In (UpdateWrite d)
                (new_effects opened (dispatch opened (OtaWrite [x09; x01; x01; x01]))) ->
             fst (Update_write d (update opened))
               <= otaFileSize opened - otaReceived opened) as Hw3.
  { intros d Hin. vm_compute in Hin.
    destruct Hin as [E | [E | []]]; discriminate E. }
  assert (otaFileSize all_received < 2 ^ 32) as Hb4 by reflexivity.
  assert (otaReceived all_received <= otaFileSize all_received) as Hle4
    by (vm_compute; discriminate).
  assert (forall d,
             In (UpdateWrite d)
                (new_effects all_received
                   (dispatch all_received (OtaWrite OTA_CMD_DONE))) ->
             fst (Update_write d (update all_received))
               <= otaFileSize all_received - otaReceived all_received) as Hw4.
  { intros d Hin. vm_compute in Hin.
    destruct Hin as [E | [E | [E | [E | []]]]]; discriminate E. }
  exact (conj
           (conj (conj Hb1 Hle1)
              (proj2 (proj2 (received_within_size_step
                               receiving8 (OtaWrite [x21; x22]) Hb1 Hle1)) Hw1))
           (conj
              (conj (conj Hb2 Hle2)
                 (proj2 (proj2 (received_within_size_step
                                  booted (OtaWrite OTA_CMD_OPEN) Hb2 Hle2)) Hw2))
              (conj
                 (conj (conj Hb3 Hle3)
                    (proj2 (proj2 (received_within_size_step
                                     opened (OtaWrite [x09; x01; x01; x01])
                                     Hb3 Hle3)) Hw3))
                 (conj (conj Hb4 Hle4)
                    (proj2 (proj2 (received_within_size_step
                                     all_received (OtaWrite OTA_CMD_DONE)
                                     Hb4 Hle4)) Hw4))))).
Defined.

(** ** Where the code departs from the stated behaviour *)

(** C1 fails on the code.  The size frame for 1024 is 00 04 00 00; [c_str]
    cuts it at its first byte, so the handler sees an empty frame and drops
    it.  With the size still 0 the payload frames are dropped as well, and
    the DONE frame is taken as the size frame.  The run ends in RECEIVING
    with a single call on the updater, [Update.begin(1162760004)]; nothing
    is written and nothing is committed. *)
Theorem scenario_1024_not_completed :
  size_frame 1024 = [x00; x04; x00; x00] /\
  c_str (size_frame 1024) = [] /\
  otaStatus (run booted scenario_1024) = RECEIVING /\
  otaInProgress (run booted scenario_1024) = true /\
  otaFileSize (run booted scenario_1024) = 1162760004 /\
  otaReceived (run booted scenario_1024) = 0 /\
  update_calls (trace (run booted scenario_1024)) = [UpdateBegin 1162760004].
Proof. vm_compute. repeat split. Qed.

(** C3 fails on the code.  A payload frame with a NUL byte inside reaches
    [Update.write] cut at that byte, and the received count advances by the
    shortened length; a payload frame that starts with a NUL byte is
    dropped. *)
Theorem data_frame_cut_at_nul :
  otaInProgress sized = true /\
  otaFileSize sized = 16843017 /\
  otaReceived sized = 0 /\
  update_calls (new_effects sized (handleOtaWrite [x01; x00; x02; x03] sized))
    = [UpdateWrite [x01]] /\
  otaReceived (handleOtaWrite [x01; x00; x02; x03] sized) = 1 /\
  handleOtaWrite [x00; x01; x02; x03; x04] sized = sized.
Proof. vm_compute. repeat split. Qed.

(** C9 fails on the code for large counters.  Halfway through an image of
    101058054 bytes the 32-bit product [otaReceived * 100] has wrapped and
    the reported percentage is 7, where the floor of
    [received * 100 / total] is 50.  The two values the specification
    lists, and a zero total, come out as stated. *)
Theorem percentage_wraps_for_large_images :
  otaReceived halfway_large = 50529027 /\
  otaFileSize halfway_large = 101058054 /\
  getUpdatePercentage halfway_large = 7 /\
  otaReceived halfway_large * 100 / otaFileSize halfway_large = 50 /\
  percentage 0 0 = 0 /\
  percentage 50 200 = 25.
Proof. vm_compute. repeat split. Qed.

(** ** Counterexamples *)

(** C2 as stated is false.  One byte short of the declared size, a two-byte
    frame is written whole and the received count passes the size. *)
Lemma received_exceeds_size_counterexample :
  otaInProgress nearly_full = true /\
  0 < otaFileSize nearly_full /\
  otaReceived nearly_full <= otaFileSize nearly_full /\
  update_calls (new_effects nearly_full (handleOtaWrite [x01; x02] nearly_full))
    = [UpdateWrite [x01; x02]] /\
  otaReceived (handleOtaWrite [x01; x02] nearly_full) = 16843010 /\
  otaFileSize (handleOtaWrite [x01; x02] nearly_full) = 16843009 /\
  ~ (otaReceived (handleOtaWrite [x01; x02] nearly_full)
       <= otaFileSize (handleOtaWrite [x01; x02] nearly_full)).
Proof.
  repeat apply conj; try reflexivity.
  - vm_compute. discriminate.
  - intros Hle. vm_compute in Hle. now apply Hle.
Qed.

(** Near the top of the 32-bit range an overrun wraps instead: two bytes
    short of the size 2^32 - 1, a five-byte frame is written whole and the
    received count comes out as 2, below the size again. *)
Lemma received_wraps_at_32_bits :
  otaFileSize nearly_max = 2 ^ 32 - 1 /\
  otaReceived nearly_max = 2 ^ 32 - 3 /\
  update_calls (new_effects nearly_max
                  (handleOtaWrite [x01; x02; x03; x04; x05] nearly_max))
    = [UpdateWrite [x01; x02; x03; x04; x05]] /\
  otaReceived (handleOtaWrite [x01; x02; x03; x04; x05] nearly_max) = 2.
Proof. vm_compute. repeat split. Qed.

(** C5 as stated is false.  An OPEN frame during a transfer whose size is
    known is written as four bytes of firmware data: the counters are not
    reset and no new session begins. *)
Lemma open_during_transfer_counterexample :
  otaInProgress receiving8 = true /\
  otaStatus receiving8 = RECEIVING /\
  otaReceived receiving8 = 8 /\
  otaFileSize receiving8 = 16843017 /\
  new_effects receiving8 (handleOtaWrite OTA_CMD_OPEN receiving8)
    = [UpdateWrite OTA_CMD_OPEN; Delay 1; ProgressReport 12 16843017 0] /\
  otaReceived (handleOtaWrite OTA_CMD_OPEN receiving8) = 12 /\
  otaFileSize (handleOtaWrite OTA_CMD_OPEN receiving8) = 16843017 /\
  ~ (otaReceived (handleOtaWrite OTA_CMD_OPEN receiving8) = 0 /\
     otaFileSize (handleOtaWrite OTA_CMD_OPEN receiving8) = 0).
Proof.
  repeat apply conj; try reflexivity.
  intros [Hr _]. vm_compute in Hr. discriminate Hr.
Qed.


(** ** The overrun state is reachable *)

Lemma total_length_app (l1 l2 : list (list byte)) :
  total_length (l1 ++ l2) = total_length l1 + total_length l2.
Proof.
  unfold total_length. rewrite List.concat_app, List.length_app. lia.
Qed.

Lemma total_length_repeat (c : list byte) (n : nat) :
  total_length (repeat c n) = N.of_nat n * N.of_nat (List.length c).
Proof.
  induction n as [|n IH].
  - reflexivity.
  - cbn [repeat]. rewrite total_length_cons, IH. lia.
Qed.

Lemma permissive_cooperative : cooperative (U := unit).
Proof. repeat split. Qed.

Lemma payload_is_data_chunk (n : nat) : (5 < n)%nat -> data_chunk (repeat xa5 n).
Proof.
  intros Hn. unfold data_chunk, nul_free. repeat apply conj.
  - intros Hin. apply repeat_spec in Hin. discriminate Hin.
  - intros E. apply (f_equal (@List.length byte)) in E.
    rewrite repeat_length in E. cbn in E. lia.
  - intros E. apply (f_equal (@List.length byte)) in E.
    rewrite repeat_length in E. cbn in E. lia.
  - intros E. apply (f_equal (@List.length byte)) in E.
    rewrite repeat_length in E. cbn in E. lia.
Qed.

Lemma payload_chunks_total : total_length payload_chunks = 16843008.
Proof.
  unfold payload_chunks.
  rewrite total_length_app, total_length_repeat, total_length_cons, repeat_length.
  reflexivity.
Qed.

Lemma payload_chunks_data : Forall data_chunk payload_chunks.
Proof.
  unfold payload_chunks. apply Forall_app. split.
  - apply Forall_forall. intros c Hin. apply repeat_spec in Hin. subst c.
    apply payload_is_data_chunk. lia.
  - constructor; [|constructor]. apply payload_is_data_chunk. lia.
Qed.

(** After OPEN, the size frame 01 01 01 01 and 16843008 bytes of payload the
    session has the flag and the counters of [nearly_full]. *)
Lemma nearly_full_reachable :
  otaInProgress (run booted (OtaWrite OTA_CMD_OPEN :: OtaWrite [x01; x01; x01; x01]
                             :: map OtaWrite payload_chunks)) = true /\
  otaFileSize (run booted (OtaWrite OTA_CMD_OPEN :: OtaWrite [x01; x01; x01; x01]
                           :: map OtaWrite payload_chunks)) = otaFileSize nearly_full /\
  otaReceived (run booted (OtaWrite OTA_CMD_OPEN :: OtaWrite [x01; x01; x01; x01]
                           :: map OtaWrite payload_chunks)) = otaReceived nearly_full /\
  otaStatus (run booted (OtaWrite OTA_CMD_OPEN :: OtaWrite [x01; x01; x01; x01]
                         :: map OtaWrite payload_chunks)) = RECEIVING.
Proof.
  change (OtaWrite OTA_CMD_OPEN :: OtaWrite [x01; x01; x01; x01]
          :: map OtaWrite payload_chunks)
    with ([OtaWrite OTA_CMD_OPEN; OtaWrite [x01; x01; x01; x01]]
          ++ map OtaWrite payload_chunks).
  rewrite run_app.
  set (s1 := run booted [OtaWrite OTA_CMD_OPEN; OtaWrite [x01; x01; x01; x01]]).
  destruct (run_data_chunks payload_chunks permissive_cooperative
                            payload_chunks_data s1)
    as (Hp & _ & Hf & Hc & Hst & _).
  - reflexivity.
  - reflexivity.
  - reflexivity.
  - rewrite payload_chunks_total. vm_compute. discriminate.
  - rewrite Hp, Hf, Hc, Hst, payload_chunks_total. repeat split.
Qed.

(** * Further properties of the handler and the interface *)

Lemma c_str_idempotent (frame : list byte) : c_str (c_str frame) = c_str frame.
Proof. apply c_str_nul_free, c_str_is_nul_free. Qed.

Lemma c_str_length (frame : list byte) :
  (List.length (c_str frame) <= List.length frame)%nat.
Proof.
  induction frame as [|b rest IH]; simpl; [lia|].
  destruct (Byte.eqb b x00); simpl; lia.
Qed.

Lemma c_str_shorter (frame : list byte) :
  In x00 frame -> (List.length (c_str frame) < List.length frame)%nat.
Proof.
  induction frame as [|b rest IH]; simpl; [tauto|].
  intros Hin. destruct (Byte.eqb b x00) eqn:E; simpl; [lia|].
  destruct Hin as [-> | Hin].
  - now rewrite (Byte.byte_dec_lb (x:=x00) eq_refl) in E.
  - specialize (IH Hin). lia.
Qed.

Lemma nul_free_dec (frame : list byte) : {nul_free frame} + {In x00 frame}.
Proof.
  destruct (in_dec Byte.byte_eq_dec x00 frame) as [Hin | Hn]; [now right | now left].
Qed.

Section Coverage.

Context {U : Type} `{UpdateClass U}.

Ltac unfold_session :=
  cbv [setOtaStatus abortUpdate updateProgress sendProgress sendStatus emit
       set_otaInProgress set_otaFileSize set_otaReceived set_otaStatus
       set_clientConnected set_update set_restarted
       otaInProgress otaFileSize otaReceived otaStatus clientConnected
       update trace restarted].

Ltac split_tests :=
  repeat match goal with
         | |- context [if ?c then _ else _] => destruct c eqn:?
         end.

Ltac new_effects_by_trace :=
  erewrite new_effects_app;
  [|cbn [trace]; rewrite <- ?app_assoc; cbn [app]; reflexivity].

(** ** Frames that are empty once cut *)

(** X1: a frame that is empty, or whose first byte is NUL, is ignored in
    every state: the session, the updater and the trace stay as they are. *)
Theorem frame_empty_after_cut_is_ignored (frame : list byte) (s : Session U) :
  c_str frame = [] -> handleOtaWrite frame s = s.
Proof.
  intros Hc. unfold handleOtaWrite. rewrite Hc. reflexivity.
Qed.

(** X2: the handler acts on the frame cut at its first NUL byte and on
    nothing else: a frame and its cut form have the same effect, so
    whatever follows the first NUL byte is never looked at. *)
Theorem handler_reads_frame_up_to_nul (frame : list byte) (s : Session U) :
  handleOtaWrite frame s = handleOtaWrite (c_str frame) s.
Proof.
  unfold handleOtaWrite. now rewrite c_str_idempotent.
Qed.

(** ** abortUpdate *)

(** X3: [abortUpdate] is idempotent: a second abort, or a disconnect after
    an abort, makes no further call on the updater and leaves it
    unchanged. *)
Theorem abortUpdate_idempotent (s : Session U) :
  abortUpdate (abortUpdate s) = abortUpdate s /\
  update_calls (new_effects (abortUpdate s) (onClientDisconnect (abortUpdate s))) = [] /\
  update (onClientDisconnect (abortUpdate s)) = update (abortUpdate s).
Proof.
  destruct s as [p fsz rcv st cc u tr rs].
  unfold onClientDisconnect. unfold_session.
  destruct p; (split; [reflexivity|]); (split; [|reflexivity]);
    (erewrite new_effects_app;
     [|cbn [trace]; rewrite <- ?app_assoc; cbn [app]; reflexivity]);
    reflexivity.
Qed.

(** ** Outside a transfer *)

(** X4: while no transfer is in progress no event reaches the updater:
    whatever frame arrives, and on connect and disconnect, no call is made
    on it and its state is unchanged. *)
Theorem updater_untouched_outside_transfer (s : Session U) (e : Event) :
  otaInProgress s = false ->
  update_calls (new_effects s (dispatch s e)) = [] /\
  update (dispatch s e) = update s.
Proof.
  intros Hp. unfold dispatch.
  destruct (restarted s); [now rewrite new_effects_same|].
  destruct s as [p fsz rcv st cc u tr rs]. cbn in Hp. subst p.
  destruct e as [frame| |].
  - unfold handleOtaWrite. unfold_session. cbn [negb andb].
    split_tests; split; try reflexivity;
      first [ now rewrite new_effects_same
            | new_effects_by_trace; reflexivity ].
  - unfold onClientConnect. unfold_session. split; [|reflexivity].
    new_effects_by_trace. reflexivity.
  - unfold onClientDisconnect. unfold_session. split; [|reflexivity].
    new_effects_by_trace. reflexivity.
Qed.

(** X5: once a transfer has been aborted, every frame that does not read
    OPEN up to its first NUL byte is ignored, and an OPEN frame starts a
    fresh transfer: in progress, both counters 0, status RECEIVING, no call
    on the updater. *)
Theorem aborted_transfer_waits_for_open (s : Session U) :
  otaInProgress s = true ->
  (forall frame, c_str frame <> OTA_CMD_OPEN ->
     handleOtaWrite frame (handleOtaWrite OTA_CMD_ABORT s)
       = handleOtaWrite OTA_CMD_ABORT s) /\
  otaInProgress (handleOtaWrite OTA_CMD_OPEN (handleOtaWrite OTA_CMD_ABORT s)) = true /\
  otaFileSize (handleOtaWrite OTA_CMD_OPEN (handleOtaWrite OTA_CMD_ABORT s)) = 0 /\
  otaReceived (handleOtaWrite OTA_CMD_OPEN (handleOtaWrite OTA_CMD_ABORT s)) = 0 /\
  otaStatus (handleOtaWrite OTA_CMD_OPEN (handleOtaWrite OTA_CMD_ABORT s)) = RECEIVING /\
  update_calls (new_effects (handleOtaWrite OTA_CMD_ABORT s)
                  (handleOtaWrite OTA_CMD_OPEN (handleOtaWrite OTA_CMD_ABORT s))) = [].
Proof.
  intros Hp. rewrite (handleOtaWrite_ABORT s Hp). split.
  - intros frame Hne. now apply handleOtaWrite_idle.
  - rewrite handleOtaWrite_OPEN_idle by reflexivity.
    cbn [otaInProgress otaFileSize otaReceived otaStatus].
    repeat split. new_effects_by_trace. reflexivity.
Qed.

(** ** Failures of the updater *)

(** X6: when [Update.begin] refuses the declared size the session goes to
    ERROR with "Not enough space" and the transfer is no longer in
    progress; [Update.end] is not called, the refused size stays in
    [otaFileSize], and later frames that do not read OPEN up to their first
    NUL byte are ignored. *)
Theorem begin_refused (frame : list byte) (s : Session U) :
  otaInProgress s = true -> otaFileSize s = 0 ->
  List.length (c_str frame) = 4%nat ->
  fst (Update_begin (memcpy_u32 (c_str frame)) (update s)) = false ->
  otaStatus (handleOtaWrite frame s) = ERROR /\
  otaInProgress (handleOtaWrite frame s) = false /\
  getUpdateTotal (handleOtaWrite frame s) = memcpy_u32 (c_str frame) /\
  new_effects s (handleOtaWrite frame s)
    = [UpdateBegin (memcpy_u32 (c_str frame)); StatusReport ERROR "Not enough space"] /\
  (forall frame', c_str frame' <> OTA_CMD_OPEN ->
     handleOtaWrite frame' (handleOtaWrite frame s) = handleOtaWrite frame s).
Proof.
  intros Hp Hs Hl Hb. rewrite (handleOtaWrite_size frame s Hp Hs Hl).
  cbv zeta. rewrite Hb. unfold getUpdateTotal.
  cbn [otaInProgress otaFileSize otaReceived otaStatus].
  repeat apply conj; try reflexivity.
  - new_effects_by_trace. reflexivity.
  - intros frame' Hne. now apply handleOtaWrite_idle.
Qed.

(** X7: when [Update.write] reports 0 bytes the session goes to ERROR with
    "Write failed", the transfer is no longer in progress and both counters
    keep their values; the only call on the updater is that write:
    [Update.end] is not called. *)
Theorem write_failure_ends_transfer (frame : list byte) (s : Session U) :
  otaInProgress s = true -> otaFileSize s <> 0 ->
  otaReceived s < otaFileSize s ->
  c_str frame <> [] -> c_str frame <> OTA_CMD_DONE -> c_str frame <> OTA_CMD_ABORT ->
  fst (Update_write (c_str frame) (update s)) = 0 ->
  otaStatus (handleOtaWrite frame s) = ERROR /\
  otaInProgress (handleOtaWrite frame s) = false /\
  otaReceived (handleOtaWrite frame s) = otaReceived s /\
  otaFileSize (handleOtaWrite frame s) = otaFileSize s /\
  new_effects s (handleOtaWrite frame s)
    = [UpdateWrite (c_str frame); Delay 1; StatusReport ERROR "Write failed"] /\
  update_calls (new_effects s (handleOtaWrite frame s)) = [UpdateWrite (c_str frame)].
Proof.
  intros Hp Hs Hlt Hne Hd Ha Hw.
  rewrite (handleOtaWrite_data frame s Hp Hs Hne Hd Ha).
  apply N.ltb_lt in Hlt. rewrite Hlt. cbv zeta. rewrite Hw.
  cbn [N.ltb N.compare otaInProgress otaFileSize otaReceived otaStatus].
  repeat apply conj; try reflexivity; new_effects_by_trace; reflexivity.
Qed.

(** ** Commit and restart *)

Ltac effects_in Hin :=
  first [ rewrite new_effects_same in Hin
        | erewrite new_effects_app in Hin;
          [|cbn [trace]; rewrite <- ?app_assoc; cbn [app]; reflexivity] ];
  cbn [In app] in Hin;
  repeat match goal with
         | Hi : _ \/ _ |- _ => destruct Hi as [Hi | Hi]
         end;
  try discriminate; try contradiction.

Lemma done_test_true (data : list byte) :
  (N.of_nat (List.length data) =? 4) && memcmp_eq data OTA_CMD_DONE 4 = true ->
  data = OTA_CMD_DONE.
Proof.
  intros E. apply andb_true_iff in E as [E4 Em]. apply N.eqb_eq in E4.
  apply (memcmp_eq_whole _ _ 4); [lia | reflexivity | exact Em].
Qed.

Lemma size_test_false (fsz : N) (data : list byte) :
  (fsz =? 0) && (N.of_nat (List.length data) =? 4) = false ->
  (N.of_nat (List.length data) =? 4) && memcmp_eq data OTA_CMD_DONE 4 = true ->
  fsz <> 0.
Proof.
  intros E1 E2. apply andb_true_iff in E2 as [E4 _]. rewrite E4 in E1.
  rewrite andb_true_r in E1. now apply N.eqb_neq.
Qed.

(** X8: the image is committed only on an exact size match: whenever a step
    calls [Update.end(true)], the event was a frame reading "DONE", a
    transfer was in progress with its size known, and the received count
    equalled the size. *)
Theorem commit_only_on_exact_size (s : Session U) (e : Event) :
  In (UpdateEnd true) (new_effects s (dispatch s e)) ->
  otaInProgress s = true /\ otaFileSize s <> 0 /\
  otaReceived s = otaFileSize s /\
  exists frame, e = OtaWrite frame /\ c_str frame = OTA_CMD_DONE.
Proof.
  unfold dispatch. destruct (restarted s).
  { intros Hin. now rewrite new_effects_same in Hin. }
  destruct s as [p fsz rcv st cc u tr rs].
  destruct e as [frame| |].
  - unfold handleOtaWrite. unfold_session. cbv zeta.
    split_tests; intros Hin; effects_in Hin.
    all: repeat apply conj; try reflexivity.
    all: try (eapply size_test_false; eassumption).
    all: try (apply N.eqb_eq; now apply negb_false_iff).
    all: exists frame; split; [reflexivity | now apply done_test_true].
  - unfold onClientConnect. unfold_session.
    destruct cc; intros Hin; effects_in Hin.
  - unfold onClientDisconnect. unfold_session.
    destruct p; intros Hin; effects_in Hin.
Qed.

(** X9: the device restarts only after a successful commit: a step that
    reaches [ESP.restart()] has called [Update.end(true)] with success on
    an exact size match and has set the status to COMPLETED. *)
Theorem restart_only_after_commit (s : Session U) (e : Event) :
  restarted s = false ->
  restarted (dispatch s e) = true ->
  otaStatus (dispatch s e) = COMPLETED /\
  otaReceived s = otaFileSize s /\
  fst (Update_end true (update s)) = true /\
  new_effects s (dispatch s e)
    = [UpdateEnd true; StatusReport COMPLETED "Update completed successfully";
       Delay 1000; EspRestart].
Proof.
  intros Hr. unfold dispatch. rewrite Hr.
  destruct s as [p fsz rcv st cc u tr rs]. cbn in Hr. subst rs.
  destruct e as [frame| |].
  - unfold handleOtaWrite. unfold_session. cbv zeta.
    split_tests; intros Hf; try discriminate Hf.
    repeat apply conj; try reflexivity.
    + apply N.eqb_eq. now apply negb_false_iff.
    + new_effects_by_trace. reflexivity.
  - unfold onClientConnect. unfold_session. destruct cc; discriminate.
  - unfold onClientDisconnect. unfold_session. destruct p; discriminate.
Qed.

(** X10: when the commit itself fails ([Update.end(true)] returns false on
    an exact size match) the session goes to ERROR with "Update
    finalization failed", the transfer is no longer in progress and the
    device does not restart. *)
Theorem commit_failure_reported (s : Session U) :
  otaInProgress s = true -> otaFileSize s <> 0 ->
  otaReceived s = otaFileSize s ->
  fst (Update_end true (update s)) = false ->
  otaStatus (handleOtaWrite OTA_CMD_DONE s) = ERROR /\
  otaInProgress (handleOtaWrite OTA_CMD_DONE s) = false /\
  restarted (handleOtaWrite OTA_CMD_DONE s) = restarted s /\
  new_effects s (handleOtaWrite OTA_CMD_DONE s)
    = [UpdateEnd true; StatusReport ERROR "Update finalization failed"].
Proof.
  intros Hp Hs He Hc. rewrite (handleOtaWrite_DONE s Hp Hs).
  apply N.eqb_eq in He. rewrite He. cbn [negb]. rewrite Hc.
  cbn [otaStatus otaInProgress restarted].
  repeat apply conj; try reflexivity. new_effects_by_trace. reflexivity.
Qed.

(** ** Progress reports *)


(** ** The size frame *)

Lemma to_N_byte_of_N (n : N) : Byte.to_N (byte_of_N n) = n mod 256.
Proof.
  unfold byte_of_N. destruct (Byte.of_N (n mod 256)) as [b|] eqn:E.
  - now apply Byte.to_of_N.
  - apply Byte.of_N_None_iff in E.
    pose proof (N.mod_upper_bound n 256). lia.
Qed.

Lemma memcpy_u32_size_frame (n : N) : n < 2 ^ 32 -> memcpy_u32 (size_frame n) = n.
Proof.
  intros Hn. unfold memcpy_u32, size_frame. cbn [firstn le_value].
  rewrite !to_N_byte_of_N.
  change (2 ^ 8) with 256. change (2 ^ 16) with (256 * 256).
  change (2 ^ 24) with (256 * 256 * 256).
  rewrite <- !N.Div0.div_div.
  set (a := n / 256). set (b := a / 256). set (c := b / 256).
  pose proof (N.div_mod n 256) as H0.
  pose proof (N.div_mod a 256) as H1.
  pose proof (N.div_mod b 256) as H2.
  assert (c < 256) as H3.
  { subst c b a. rewrite !N.Div0.div_div. apply N.Div0.div_lt_upper_bound.
    change (256 * 256 * 256 * 256) with (2 ^ 32). exact Hn. }
  rewrite (N.mod_small c 256) by exact H3.
  fold a in H0. fold b in H1. fold c in H2. lia.
Qed.

Lemma memcpy_u32_lower (data : list byte) :
  List.length data = 4%nat -> nul_free data -> 16843009 <= memcpy_u32 data.
Proof.
  intros Hl Hn.
  destruct data as [|a [|b [|c [|d [|? ?]]]]]; try discriminate Hl.
  unfold memcpy_u32. cbn [firstn le_value].
  assert (forall x, In x [a; b; c; d] -> 1 <= Byte.to_N x) as Hpos.
  { intros x Hx. assert (Byte.to_N x <> 0); [|lia].
    intros E. apply to_N_zero in E. subst x. now apply Hn. }
  pose proof (Hpos a (or_introl eq_refl)).
  pose proof (Hpos b (or_intror (or_introl eq_refl))).
  pose proof (Hpos c (or_intror (or_intror (or_introl eq_refl)))).
  pose proof (Hpos d (or_intror (or_intror (or_intror (or_introl eq_refl))))).
  lia.
Qed.

(** X12: with a transfer open and the size not yet known, the
    little-endian size frame for [n] is taken up exactly when none of its
    four bytes is zero: then [otaFileSize] becomes [n] and the one call on
    the updater is [Update.begin(n)]; with a zero byte in it the frame is
    ignored altogether. *)
Theorem size_frame_needs_nonzero_bytes (n : N) (s : Session U) :
  otaInProgress s = true -> otaFileSize s = 0 -> n < 2 ^ 32 ->
  (nul_free (size_frame n) ->
   getUpdateTotal (handleOtaWrite (size_frame n) s) = n /\
   update_calls (new_effects s (handleOtaWrite (size_frame n) s)) = [UpdateBegin n]) /\
  (In x00 (size_frame n) -> handleOtaWrite (size_frame n) s = s).
Proof.
  intros Hp Hs Hn. split.
  - intros Hfree. pose proof (c_str_nul_free _ Hfree) as Ec.
    rewrite handleOtaWrite_size; [|exact Hp|exact Hs|now rewrite Ec].
    rewrite Ec, (memcpy_u32_size_frame n Hn). cbv zeta.
    unfold getUpdateTotal.
    destruct (fst (Update_begin n (update s))); cbn [otaFileSize];
      (split; [reflexivity|]); new_effects_by_trace; reflexivity.
  - intros Hin. apply c_str_shorter in Hin.
    change (List.length (size_frame n)) with 4%nat in Hin.
    destruct s as [p fsz rcv st cc u tr rs]. cbn in Hp, Hs. subst p fsz.
    unfold handleOtaWrite.
    destruct (c_str (size_frame n)) as [|a [|b [|c [|d l]]]];
      cbn [List.length] in Hin; try lia;
      cbn; destruct rcv; reflexivity.
Qed.

Lemma dispatch_declared_size (s : Session U) (e : Event) :
  otaFileSize s = 0 \/ 16843009 <= otaFileSize s < 2 ^ 32 ->
  otaFileSize (dispatch s e) = 0 \/ 16843009 <= otaFileSize (dispatch s e) < 2 ^ 32.
Proof.
  intros Hinv. unfold dispatch. destruct (restarted s); [exact Hinv|].
  destruct s as [p fsz rcv st cc u tr rs]. cbn [otaFileSize] in Hinv.
  destruct e as [frame| |].
  - pose proof (memcpy_u32_bound (c_str frame)) as Hub.
    unfold handleOtaWrite. unfold_session. cbv zeta.
    split_tests; cbn [otaFileSize]; try exact Hinv; try (now left).
    all: right; split; [|exact Hub].
    all: apply memcpy_u32_lower; [|apply c_str_is_nul_free].
    all: match goal with
         | Hz : (_ =? 0) && (N.of_nat ?l =? 4) = true |- _ =>
             apply andb_true_iff in Hz as [_ Hz]; apply N.eqb_eq in Hz; lia
         end.
  - unfold onClientConnect. unfold_session. destruct cc; exact Hinv.
  - unfold onClientDisconnect. unfold_session.
    destruct p; cbn [otaFileSize]; [now left | exact Hinv].
Qed.

(** X13: whatever frames and connection events arrive after construction,
    the declared size is either still 0 or at least 0x01010101 = 16843009
    (and below 2^32): no smaller image size can ever be recorded. *)
Theorem declared_size_never_small (u : U) (events : list Event) :
  getUpdateTotal (run (initial u) events) = 0 \/
  16843009 <= getUpdateTotal (run (initial u) events) < 2 ^ 32.
Proof.
  unfold getUpdateTotal.
  assert (forall evs (s : Session U),
             otaFileSize s = 0 \/ 16843009 <= otaFileSize s < 2 ^ 32 ->
             otaFileSize (run s evs) = 0 \/
             16843009 <= otaFileSize (run s evs) < 2 ^ 32) as Hgen.
  { induction evs as [|e evs IH]; intros s Hinv; [exact Hinv|].
    cbn [run fold_left] in *. apply IH. now apply dispatch_declared_size. }
  apply Hgen. now left.
Qed.

(** ** Control methods *)

(** The handler never reads the status: changing it beforehand changes
    nothing else in what the handler does. *)
Lemma handleOtaWrite_status_blind
    (status : OtaStatus) (message : string) (frame : list byte) (s : Session U) :
  otaInProgress (handleOtaWrite frame (setOtaStatus status message s))
    = otaInProgress (handleOtaWrite frame s) /\
  otaFileSize (handleOtaWrite frame (setOtaStatus status message s))
    = otaFileSize (handleOtaWrite frame s) /\
  otaReceived (handleOtaWrite frame (setOtaStatus status message s))
    = otaReceived (handleOtaWrite frame s) /\
  update (handleOtaWrite frame (setOtaStatus status message s))
    = update (handleOtaWrite frame s) /\
  new_effects (setOtaStatus status message s)
              (handleOtaWrite frame (setOtaStatus status message s))
    = new_effects s (handleOtaWrite frame s).
Proof.
  destruct s as [p fsz rcv st cc u tr rs].
  unfold handleOtaWrite. unfold_session. cbv zeta.
  split_tests; repeat apply conj; try reflexivity;
    repeat first [ rewrite new_effects_same | new_effects_by_trace ];
    reflexivity.
Qed.

(** X14: [stop] does not end a transfer.  It sets the status to IDLE and
    stops advertising when the server exists, but the transfer stays in
    progress with its counters and the updater untouched, and the next
    frame is handled exactly as it would have been: the same calls on the
    updater, the same counters, the same flag. *)
Theorem stop_does_not_abort (pServer : bool) (frame : list byte) (s : Session U) :
  fst (stop pServer s) = (if pServer then [stopAdvertising] else []) /\
  getOtaStatus (snd (stop pServer s)) = IDLE /\
  isUpdateInProgress (snd (stop pServer s)) = isUpdateInProgress s /\
  getUpdateProgress (snd (stop pServer s)) = getUpdateProgress s /\
  getUpdateTotal (snd (stop pServer s)) = getUpdateTotal s /\
  update (snd (stop pServer s)) = update s /\
  update_calls (new_effects s (snd (stop pServer s))) = [] /\
  new_effects (snd (stop pServer s)) (handleOtaWrite frame (snd (stop pServer s)))
    = new_effects s (handleOtaWrite frame s) /\
  isUpdateInProgress (handleOtaWrite frame (snd (stop pServer s)))
    = isUpdateInProgress (handleOtaWrite frame s) /\
  getUpdateProgress (handleOtaWrite frame (snd (stop pServer s)))
    = getUpdateProgress (handleOtaWrite frame s) /\
  update (handleOtaWrite frame (snd (stop pServer s)))
    = update (handleOtaWrite frame s).
Proof.
  unfold stop, isUpdateInProgress, getUpdateProgress, getUpdateTotal, getOtaStatus.
  cbv zeta. cbn [fst snd].
  destruct (handleOtaWrite_status_blind IDLE "Service stopped" frame s)
    as (Hp & _ & Hr & Hu & He).
  repeat apply conj; try reflexivity; try assumption.
  unfold setOtaStatus. new_effects_by_trace. reflexivity.
Qed.

(** X15: [restart] does nothing at all before the server exists, where
    [stop] still resets the status; with the server it restarts
    advertising and sets the status to IDLE, and like [stop] it leaves a
    transfer in progress and the updater untouched. *)
Theorem restart_keeps_transfer (pServer : bool) (s : Session U) :
  restart false s = ([], s) /\
  getOtaStatus (snd (stop false s)) = IDLE /\
  fst (restart true s) = [startAdvertising] /\
  getOtaStatus (snd (restart true s)) = IDLE /\
  isUpdateInProgress (snd (restart pServer s)) = isUpdateInProgress s /\
  getUpdateProgress (snd (restart pServer s)) = getUpdateProgress s /\
  getUpdateTotal (snd (restart pServer s)) = getUpdateTotal s /\
  update (snd (restart pServer s)) = update s /\
  update_calls (new_effects s (snd (restart pServer s))) = [].
Proof.
  unfold restart, stop, isUpdateInProgress, getUpdateProgress, getUpdateTotal,
    getOtaStatus.
  destruct pServer; cbn [fst snd]; repeat apply conj; try reflexivity.
  - unfold setOtaStatus. new_effects_by_trace. reflexivity.
  - now rewrite new_effects_same.
Qed.

(** ** Losing the link *)

(** X22: a transfer does not survive a lost link.  After a disconnect during
    a transfer and a reconnect, the session is ABORTED with both counters 0
    and no transfer in progress, and every frame that does not read OPEN up
    to its first NUL byte is ignored: the peer has to start over. *)
Theorem reconnect_does_not_resume (s : Session U) :
  otaInProgress s = true ->
  getOtaStatus (onClientConnect (onClientDisconnect s)) = ABORTED /\
  isUpdateInProgress (onClientConnect (onClientDisconnect s)) = false /\
  getUpdateProgress (onClientConnect (onClientDisconnect s)) = 0 /\
  getUpdateTotal (onClientConnect (onClientDisconnect s)) = 0 /\
  isConnected (onClientConnect (onClientDisconnect s)) = true /\
  update_calls (new_effects s (onClientConnect (onClientDisconnect s)))
    = [UpdateEnd false] /\
  (forall frame, c_str frame <> OTA_CMD_OPEN ->
     handleOtaWrite frame (onClientConnect (onClientDisconnect s))
       = onClientConnect (onClientDisconnect s)).
Proof.
  intros Hp. destruct s as [p fsz rcv st cc u tr rs]. cbn in Hp. subst p.
  unfold onClientConnect, onClientDisconnect, getOtaStatus, isUpdateInProgress,
    getUpdateProgress, getUpdateTotal, isConnected.
  unfold_session.
  repeat apply conj; try reflexivity.
  - new_effects_by_trace. reflexivity.
  - intros frame Hne. now apply handleOtaWrite_idle.
Qed.

(** ** Accounting of writes *)

(** X23: the received count advances by what [Update.write] reports, not by
    the length of the frame: after a write that reports a positive count
    the count is the old one plus the reported one (modulo 2^32), the
    transfer stays in progress and the size and the status are unchanged. *)
Theorem received_counts_reported_bytes (frame : list byte) (s : Session U) :
  otaInProgress s = true -> otaFileSize s <> 0 ->
  otaReceived s < otaFileSize s ->
  c_str frame <> [] -> c_str frame <> OTA_CMD_DONE -> c_str frame <> OTA_CMD_ABORT ->
  0 < fst (Update_write (c_str frame) (update s)) ->
  getUpdateProgress (handleOtaWrite frame s)
    = wrap32 (otaReceived s + fst (Update_write (c_str frame) (update s))) /\
  isUpdateInProgress (handleOtaWrite frame s) = true /\
  getUpdateTotal (handleOtaWrite frame s) = otaFileSize s /\
  getOtaStatus (handleOtaWrite frame s) = otaStatus s /\
  update (handleOtaWrite frame s) = snd (Update_write (c_str frame) (update s)).
Proof.
  intros Hp Hs Hlt Hne Hd Ha Hw.
  rewrite (handleOtaWrite_data frame s Hp Hs Hne Hd Ha).
  apply N.ltb_lt in Hlt. rewrite Hlt. cbv zeta.
  apply N.ltb_lt in Hw. rewrite Hw.
  repeat split.
Qed.

End Coverage.

(** ** The command channel *)

(** X16: the command callback is called exactly when one is set and the
    frame is not empty once cut at its first NUL byte; the text it gets is
    the frame up to that byte, which holds no NUL and is the whole frame
    when the frame has none. *)
Theorem handleCommandWrite_delivers_cut_frame
    (commandCallback : bool) (frame cmd : list byte) :
  (handleCommandWrite commandCallback frame = Some cmd <->
   commandCallback = true /\ cmd = c_str frame /\ cmd <> []) /\
  (handleCommandWrite commandCallback frame = Some cmd -> nul_free cmd) /\
  (handleCommandWrite commandCallback frame = Some frame <->
   commandCallback = true /\ nul_free frame /\ frame <> []).
Proof.
  assert (forall c : list byte,
             handleCommandWrite commandCallback frame = Some c <->
             commandCallback = true /\ c = c_str frame /\ c <> []) as Hiff.
  { intros c. unfold handleCommandWrite. cbv zeta. rewrite c_str_idempotent.
    destruct commandCallback; cbn [andb].
    - destruct (c_str frame) as [|b rest] eqn:E; cbn.
      + split; [discriminate|]. intros (_ & -> & Hne). congruence.
      + split.
        * intros [= <-]. repeat split. discriminate.
        * intros (_ & -> & _). reflexivity.
    - split; [discriminate|]. intros (Hf & _). discriminate Hf. }
  split; [apply Hiff|]. split.
  - intros Hs. apply Hiff in Hs as (_ & -> & _). apply c_str_is_nul_free.
  - rewrite Hiff. split.
    + intros (Hc & Hf & Hne). repeat split; try assumption.
      rewrite Hf. apply c_str_is_nul_free.
    + intros (Hc & Hf & Hne). repeat split; try assumption.
      symmetry. now apply c_str_nul_free.
Qed.

(** ** The percentage within range *)

(** X17: for a size below 2^32 / 100 and a received count that has not
    passed it, the reported percentage is the floor of
    [received * 100 / total]; it never exceeds 100, grows with the received
    count and is 100 exactly when everything has been received. *)
Theorem percentage_tracks_progress (received total : N) :
  total <> 0 -> received <= total -> total * 100 < 2 ^ 32 ->
  percentage received total = received * 100 / total /\
  percentage received total <= 100 /\
  (percentage received total = 100 <-> received = total) /\
  (forall earlier, earlier <= received ->
     percentage earlier total <= percentage received total).
Proof.
  intros Ht Hle Hm.
  rewrite (percentage_within_size received total Ht Hle Hm).
  assert (received * 100 / total <= 100) as Hub
    by (apply N.Div0.div_le_upper_bound; lia).
  split; [reflexivity|]. split; [exact Hub|]. split; [split|].
  - intros E. pose proof (N.Div0.mul_div_le (received * 100) total) as Hd.
    rewrite E in Hd. lia.
  - intros ->. rewrite N.mul_comm. now apply N.div_mul.
  - intros earlier He.
    rewrite (percentage_within_size earlier total Ht) by lia.
    apply N.Div0.div_le_mono. lia.
Qed.

(** ** Witnesses of the further properties *)

Lemma frame_empty_after_cut_is_ignored_witness :
  c_str [x00; x4f; x50; x45; x4e] = [] /\
  handleOtaWrite [x00; x4f; x50; x45; x4e] receiving8 = receiving8.
Proof.
  assert (c_str [x00; x4f; x50; x45; x4e] = []) as Hc by reflexivity.
  exact (conj Hc (frame_empty_after_cut_is_ignored _ receiving8 Hc)).
Defined.

Lemma updater_untouched_outside_transfer_witness :
  otaInProgress booted = false /\
  update_calls (new_effects booted (dispatch booted (OtaWrite OTA_CMD_DONE))) = [] /\
  update (dispatch booted (OtaWrite OTA_CMD_DONE)) = update booted.
Proof.
  assert (otaInProgress booted = false) as Hp by reflexivity.
  exact (conj Hp (updater_untouched_outside_transfer booted (OtaWrite OTA_CMD_DONE) Hp)).
Defined.

Lemma aborted_transfer_waits_for_open_witness :
  otaInProgress receiving8 = true /\
  otaStatus (handleOtaWrite OTA_CMD_OPEN (handleOtaWrite OTA_CMD_ABORT receiving8))
    = RECEIVING.
Proof.
  assert (otaInProgress receiving8 = true) as Hp by reflexivity.
  pose proof (aborted_transfer_waits_for_open receiving8 Hp) as (_ & _ & _ & _ & Hst & _).
  exact (conj Hp Hst).
Defined.

Lemma begin_refused_witness :
  (otaInProgress opened_small_partition = true /\
   otaFileSize opened_small_partition = 0 /\
   List.length (c_str [x09; x01; x01; x01]) = 4%nat /\
   fst (Update_begin (memcpy_u32 (c_str [x09; x01; x01; x01]))
                     (update opened_small_partition)) = false) /\
  otaStatus (handleOtaWrite [x09; x01; x01; x01] opened_small_partition) = ERROR /\
  otaInProgress (handleOtaWrite [x09; x01; x01; x01] opened_small_partition) = false.
Proof.
  assert (otaInProgress opened_small_partition = true) as Hp by reflexivity.
  assert (otaFileSize opened_small_partition = 0) as Hs by reflexivity.
  assert (List.length (c_str [x09; x01; x01; x01]) = 4%nat) as Hl by reflexivity.
  assert (fst (Update_begin (memcpy_u32 (c_str [x09; x01; x01; x01]))
                            (update opened_small_partition)) = false) as Hb
    by reflexivity.
  pose proof (begin_refused _ opened_small_partition Hp Hs Hl Hb) as (Hst & Hf & _).
  exact (conj (conj Hp (conj Hs (conj Hl Hb))) (conj Hst Hf)).
Defined.

Lemma write_failure_ends_transfer_witness :
  (otaInProgress four_bytes_left = true /\
   otaReceived four_bytes_left < otaFileSize four_bytes_left /\
   fst (Update_write (c_str [x01; x02; x03; x04; x05]) (update four_bytes_left)) = 0) /\
  otaStatus (handleOtaWrite [x01; x02; x03; x04; x05] four_bytes_left) = ERROR /\
  update_calls (new_effects four_bytes_left
                  (handleOtaWrite [x01; x02; x03; x04; x05] four_bytes_left))
    = [UpdateWrite (c_str [x01; x02; x03; x04; x05])].
Proof.
  assert (otaInProgress four_bytes_left = true) as Hp by reflexivity.
  assert (otaFileSize four_bytes_left <> 0) as Hs by (vm_compute; discriminate).
  assert (otaReceived four_bytes_left < otaFileSize four_bytes_left) as Hlt
    by reflexivity.
  assert (c_str [x01; x02; x03; x04; x05] <> []) as Hne by (vm_compute; discriminate).
  assert (c_str [x01; x02; x03; x04; x05] <> OTA_CMD_DONE) as Hd
    by (vm_compute; discriminate).
  assert (c_str [x01; x02; x03; x04; x05] <> OTA_CMD_ABORT) as Ha
    by (vm_compute; discriminate).
  assert (fst (Update_write (c_str [x01; x02; x03; x04; x05])
                            (update four_bytes_left)) = 0) as Hw by reflexivity.
  pose proof (write_failure_ends_transfer _ four_bytes_left Hp Hs Hlt Hne Hd Ha Hw)
    as (Hst & _ & _ & _ & _ & Hc).
  exact (conj (conj Hp (conj Hlt Hw)) (conj Hst Hc)).
Defined.

Lemma commit_only_on_exact_size_witness :
  In (UpdateEnd true)
     (new_effects all_received (dispatch all_received (OtaWrite OTA_CMD_DONE))) /\
  otaInProgress all_received = true /\
  otaReceived all_received = otaFileSize all_received.
Proof.
  assert (In (UpdateEnd true)
             (new_effects all_received (dispatch all_received (OtaWrite OTA_CMD_DONE))))
    as Hin by (vm_compute; left; reflexivity).
  pose proof (commit_only_on_exact_size all_received (OtaWrite OTA_CMD_DONE) Hin)
    as (Hp & _ & He & _).
  exact (conj Hin (conj Hp He)).
Defined.

Lemma restart_only_after_commit_witness :
  (restarted all_received = false /\
   restarted (dispatch all_received (OtaWrite OTA_CMD_DONE)) = true) /\
  otaStatus (dispatch all_received (OtaWrite OTA_CMD_DONE)) = COMPLETED.
Proof.
  assert (restarted all_received = false) as Hr by reflexivity.
  assert (restarted (dispatch all_received (OtaWrite OTA_CMD_DONE)) = true) as Hr'
    by reflexivity.
  pose proof (restart_only_after_commit all_received (OtaWrite OTA_CMD_DONE) Hr Hr')
    as (Hst & _).
  exact (conj (conj Hr Hr') Hst).
Defined.

Lemma commit_failure_reported_witness :
  (otaInProgress invalid_image_received = true /\
   otaReceived invalid_image_received = otaFileSize invalid_image_received /\
   fst (Update_end true (update invalid_image_received)) = false) /\
  otaStatus (handleOtaWrite OTA_CMD_DONE invalid_image_received) = ERROR /\
  restarted (handleOtaWrite OTA_CMD_DONE invalid_image_received) = false.
Proof.
  assert (otaInProgress invalid_image_received = true) as Hp by reflexivity.
  assert (otaFileSize invalid_image_received <> 0) as Hs by (vm_compute; discriminate).
  assert (otaReceived invalid_image_received = otaFileSize invalid_image_received)
    as He by reflexivity.
  assert (fst (Update_end true (update invalid_image_received)) = false) as Hc
    by reflexivity.
  pose proof (commit_failure_reported invalid_image_received Hp Hs He Hc)
    as (Hst & _ & Hr & _).
  exact (conj (conj Hp (conj He Hc)) (conj Hst Hr)).
Defined.


Lemma size_frame_needs_nonzero_bytes_witness :
  (otaInProgress opened = true /\ otaFileSize opened = 0 /\ 16843017 < 2 ^ 32 /\
   nul_free (size_frame 16843017)) /\
  getUpdateTotal (handleOtaWrite (size_frame 16843017) opened) = 16843017 /\
  update_calls (new_effects opened (handleOtaWrite (size_frame 16843017) opened))
    = [UpdateBegin 16843017].
Proof.
  assert (otaInProgress opened = true) as Hp by reflexivity.
  assert (otaFileSize opened = 0) as Hs by reflexivity.
  assert (16843017 < 2 ^ 32) as Hn by reflexivity.
  assert (nul_free (size_frame 16843017)) as Hfree
    by (vm_compute; intuition discriminate).
  exact (conj (conj Hp (conj Hs (conj Hn Hfree)))
              (proj1 (size_frame_needs_nonzero_bytes 16843017 opened Hp Hs Hn) Hfree)).
Defined.

Lemma percentage_tracks_progress_witness :
  (200 <> 0 /\ 50 <= 200 /\ 200 * 100 < 2 ^ 32) /\
  percentage 50 200 = 50 * 100 / 200 /\ percentage 50 200 <= 100.
Proof.
  assert (200 <> 0) as Ht by discriminate.
  assert (50 <= 200) as Hle by (vm_compute; discriminate).
  assert (200 * 100 < 2 ^ 32) as Hm by reflexivity.
  pose proof (percentage_tracks_progress 50 200 Ht Hle Hm) as (He & Hub & _).
  exact (conj (conj Ht (conj Hle Hm)) (conj He Hub)).
Defined.

Lemma full_payload_total : total_length full_payload = 16843009.
Proof.
  unfold full_payload. rewrite total_length_app, payload_chunks_total. reflexivity.
Qed.

Lemma full_payload_data : Forall data_chunk full_payload.
Proof.
  unfold full_payload. apply Forall_app. split; [exact payload_chunks_data|].
  constructor; [|constructor]. unfold data_chunk, nul_free.
  repeat apply conj; try discriminate.
  intros [E | []]. discriminate E.
Qed.

Lemma transfer_of_nul_free_frames_completes_witness :
  (otaInProgress booted = false /\ restarted booted = false /\
   total_length full_payload = memcpy_u32 [x01; x01; x01; x01]) /\
  otaStatus (run booted (OtaWrite OTA_CMD_OPEN :: OtaWrite [x01; x01; x01; x01] ::
                         map OtaWrite full_payload ++ [OtaWrite OTA_CMD_DONE]))
    = COMPLETED /\
  otaReceived (run booted (OtaWrite OTA_CMD_OPEN :: OtaWrite [x01; x01; x01; x01] ::
                           map OtaWrite full_payload ++ [OtaWrite OTA_CMD_DONE]))
    = memcpy_u32 [x01; x01; x01; x01].
Proof.
  assert (otaInProgress booted = false) as Hp by reflexivity.
  assert (restarted booted = false) as Hr by reflexivity.
  assert (List.length [x01; x01; x01; x01] = 4%nat) as Hl by reflexivity.
  assert (nul_free [x01; x01; x01; x01]) as Hn
    by (unfold nul_free; cbn [In]; intuition discriminate).
  assert (total_length full_payload = memcpy_u32 [x01; x01; x01; x01]) as Ht
    by (rewrite full_payload_total; reflexivity).
  pose proof (transfer_of_nul_free_frames_completes
                booted [x01; x01; x01; x01] full_payload
                permissive_cooperative Hp Hr Hl Hn full_payload_data Ht)
    as (Hst & Hrc & _).
  exact (conj (conj Hp (conj Hr Ht)) (conj Hst Hrc)).
Defined.

Lemma data_frame_forwarded_witness :
  (otaInProgress sized = true /\ otaReceived sized < otaFileSize sized /\
   nul_free [x01; x02; x03]) /\
  update_calls (new_effects sized (handleOtaWrite [x01; x02; x03] sized))
    = [UpdateWrite [x01; x02; x03]].
Proof.
  assert (otaInProgress sized = true) as Hp by reflexivity.
  assert (otaFileSize sized <> 0) as Hs by (vm_compute; discriminate).
  assert (otaReceived sized < otaFileSize sized) as Hlt by reflexivity.
  assert (nul_free [x01; x02; x03]) as Hn
    by (unfold nul_free; cbn [In]; intuition discriminate).
  assert ([x01; x02; x03] <> []) as Hne by discriminate.
  assert ([x01; x02; x03] <> OTA_CMD_DONE) as Hd by (vm_compute; discriminate).
  assert ([x01; x02; x03] <> OTA_CMD_ABORT) as Ha by (vm_compute; discriminate).
  exact (conj (conj Hp (conj Hlt Hn))
              (data_frame_forwarded _ sized Hp Hs Hlt Hn Hne Hd Ha)).
Defined.

Lemma write_gets_c_str_witness :
  In (UpdateWrite [x01])
     (new_effects sized (handleOtaWrite [x01; x00; x02] sized)) /\
  [x01] = c_str [x01; x00; x02] /\ nul_free [x01].
Proof.
  assert (In (UpdateWrite [x01])
             (new_effects sized (handleOtaWrite [x01; x00; x02] sized))) as Hin
    by (vm_compute; auto).
  exact (conj Hin (write_gets_c_str [x01; x00; x02] sized [x01] Hin)).
Defined.

Lemma run_flag_status_witness :
  restarted (run (initial tt) [OtaWrite OTA_CMD_OPEN; OtaWrite OTA_CMD_ABORT]) = false /\
  (otaInProgress (run (initial tt) [OtaWrite OTA_CMD_OPEN; OtaWrite OTA_CMD_ABORT]) = true
   <-> otaStatus (run (initial tt) [OtaWrite OTA_CMD_OPEN; OtaWrite OTA_CMD_ABORT])
       = RECEIVING).
Proof.
  assert (restarted (run (initial tt) [OtaWrite OTA_CMD_OPEN; OtaWrite OTA_CMD_ABORT])
          = false) as Hr by reflexivity.
  exact (conj Hr (run_flag_status tt _ Hr)).
Defined.

Lemma reconnect_does_not_resume_witness :
  otaInProgress receiving8 = true /\
  getOtaStatus (onClientConnect (onClientDisconnect receiving8)) = ABORTED /\
  getUpdateProgress (onClientConnect (onClientDisconnect receiving8)) = 0.
Proof.
  assert (otaInProgress receiving8 = true) as Hp by reflexivity.
  pose proof (reconnect_does_not_resume receiving8 Hp) as (Hst & _ & Hr & _).
  exact (conj Hp (conj Hst Hr)).
Defined.

Lemma received_counts_reported_bytes_witness :
  (otaInProgress receiving8 = true /\
   otaReceived receiving8 < otaFileSize receiving8 /\
   0 < fst (Update_write (c_str [x21; x00; x22]) (update receiving8))) /\
  getUpdateProgress (handleOtaWrite [x21; x00; x22] receiving8)
    = wrap32 (otaReceived receiving8
              + fst (Update_write (c_str [x21; x00; x22]) (update receiving8))).
Proof.
  assert (otaInProgress receiving8 = true) as Hp by reflexivity.
  assert (otaFileSize receiving8 <> 0) as Hs by (vm_compute; discriminate).
  assert (otaReceived receiving8 < otaFileSize receiving8) as Hlt by reflexivity.
  assert (c_str [x21; x00; x22] <> []) as Hne by (vm_compute; discriminate).
  assert (c_str [x21; x00; x22] <> OTA_CMD_DONE) as Hd by (vm_compute; discriminate).
  assert (c_str [x21; x00; x22] <> OTA_CMD_ABORT) as Ha by (vm_compute; discriminate).
  assert (0 < fst (Update_write (c_str [x21; x00; x22]) (update receiving8))) as Hw
    by reflexivity.
  pose proof (received_counts_reported_bytes _ receiving8 Hp Hs Hlt Hne Hd Ha Hw)
    as (Hr & _).
  exact (conj (conj Hp (conj Hlt Hw)) Hr).
Defined.
